(** * Security posture verifier: [tools/verify_connectivity.py]

    A shallow embedding of [K8sConnectivityVerifier] and the properties of
    its three checks and of the orchestrator [verify_all].

    - Python [str] is modelled by [string], holding the bytes of its UTF-8
      encoding; [str.strip] removes every character Python counts as
      whitespace, [str.lower] is given on the 7-bit range.
    - The value returned by [json.loads] is modelled by [json]; a Python
      [dict] is an association list in insertion order, looked up by its
      first binding of a key.
    - [subprocess.run] is the outside world: an [oracle] answers every
      command from the events that happened before it. A command always
      answers: what [subprocess.run] itself raises (output that cannot be
      decoded, a NUL in the command line) is outside the model.
    - [print] appends an event carrying the format string of the source
      line and the values interpolated into it.
    - An uncaught Python exception is the [Raise] outcome of a computation. *)

From Stdlib Require Import List String Ascii ZArith Bool Lia.
From Stdlib Require Import Floats.PrimFloat.
From Stdlib Require DecimalString.
Import ListNotations.
Open Scope string_scope.
Open Scope Z_scope.

(** ** Python strings *)

Module PyStr.

(** A [str] is held as the bytes of its UTF-8 encoding. *)

(** The whitespace characters of the 7-bit range: TAB, LF, VT, FF, CR, the
    four separators FS GS RS US, and the blank. *)
Definition ascii_space (c : ascii) : bool :=
  let n := nat_of_ascii c in
  ((9 <=? n)%nat && (n <=? 13)%nat) || ((28 <=? n)%nat && (n <=? 32)%nat).

(** The whitespace characters encoded on two bytes: U+0085 (C2 85) and
    U+00A0 (C2 A0). *)
Definition two_byte_space (c d : ascii) : bool :=
  let c := nat_of_ascii c in
  let d := nat_of_ascii d in
  (c =? 194)%nat && ((d =? 133)%nat || (d =? 160)%nat).

(** The whitespace characters encoded on three bytes: U+1680 (E1 9A 80),
    U+2000 to U+200A (E2 80 80 to E2 80 8A), U+2028 and U+2029 (E2 80 A8,
    E2 80 A9), U+202F (E2 80 AF), U+205F (E2 81 9F), U+3000 (E3 80 80). *)
Definition three_byte_space (c d e : ascii) : bool :=
  let c := nat_of_ascii c in
  let d := nat_of_ascii d in
  let e := nat_of_ascii e in
  ((c =? 225)%nat && (d =? 154)%nat && (e =? 128)%nat)
  || ((c =? 226)%nat && (d =? 128)%nat
      && (((128 <=? e)%nat && (e <=? 138)%nat)
          || (e =? 168)%nat || (e =? 169)%nat || (e =? 175)%nat))
  || ((c =? 226)%nat && (d =? 129)%nat && (e =? 159)%nat)
  || ((c =? 227)%nat && (d =? 128)%nat && (e =? 128)%nat).

(** [s.lstrip()]: drops the whitespace characters [s] starts with, whatever
    their width. *)
Fixpoint lstrip (s : string) : string :=
  match s with
  | EmptyString => EmptyString
  | String c s1 =>
      if ascii_space c then lstrip s1
      else
        match s1 with
        | EmptyString => s
        | String d s2 =>
            if two_byte_space c d then lstrip s2
            else
              match s2 with
              | EmptyString => s
              | String e s3 => if three_byte_space c d e then lstrip s3 else s
              end
        end
  end.

(** The string holds whitespace only (or nothing). *)
Definition blank (s : string) : bool :=
  match lstrip s with
  | EmptyString => true
  | String _ _ => false
  end.

(** [s.rstrip()]: keeps the bytes up to the point from which only
    whitespace follows. *)
Fixpoint rstrip (s : string) : string :=
  match s with
  | EmptyString => EmptyString
  | String c s' => if blank s then EmptyString else String c (rstrip s')
  end.

Definition strip (s : string) : string := rstrip (lstrip s).

Definition lower_char (c : ascii) : ascii :=
  let n := nat_of_ascii c in
  if ((65 <=? n)%nat && (n <=? 90)%nat)%bool then ascii_of_nat (n + 32) else c.

Fixpoint lower (s : string) : string :=
  match s with
  | EmptyString => EmptyString
  | String c s' => String (lower_char c) (lower s')
  end.

(** [needle in hay] *)
Fixpoint contains (needle hay : string) : bool :=
  if prefix needle hay then true
  else match hay with
       | EmptyString => false
       | String _ hay' => contains needle hay'
       end.

(** [s * n] *)
Fixpoint mul (s : string) (n : nat) : string :=
  match n with
  | O => EmptyString
  | S n' => s ++ mul s n'
  end.

(** [bool(s)] *)
Definition truthy (s : string) : bool :=
  match s with EmptyString => false | _ => true end.

(** The characters of a string, as Python iterates over it. *)
Fixpoint chars (s : string) : list string :=
  match s with
  | EmptyString => []
  | String c s' => String c EmptyString :: chars s'
  end.

End PyStr.

(** ** Values produced by [json.loads] *)

#[warnings="-register-all"]
Inductive json : Type :=
| JNull
| JBool (b : bool)
| JInt (n : Z)
| JFloat (f : float)
| JStr (s : string)
| JArr (l : list json)
| JObj (kvs : list (string * json)).

Inductive exn : Type :=
| AttributeError
| TypeError
| KeyError (k : string).

Inductive result (A : Type) : Type :=
| Ok (a : A)
| Raise (e : exn).
Arguments Ok {A} a.
Arguments Raise {A} e.

Module Py.

Fixpoint lookup (k : string) (kvs : list (string * json)) : option json :=
  match kvs with
  | [] => None
  | (k', v) :: rest => if String.eqb k k' then Some v else lookup k rest
  end.

(** [bool(v)] *)
Definition truthy (v : json) : bool :=
  match v with
  | JNull => false
  | JBool b => b
  | JInt n => negb (n =? 0)
  | JFloat f => negb (PrimFloat.eqb f PrimFloat.zero)
  | JStr s => PyStr.truthy s
  | JArr l => match l with [] => false | _ => true end
  | JObj kvs => match kvs with [] => false | _ => true end
  end.

(** [v.get(k, d)]: only a dict has the method. *)
Definition get (v : json) (k : string) (d : json) : result json :=
  match v with
  | JObj kvs => Ok (match lookup k kvs with Some x => x | None => d end)
  | _ => Raise AttributeError
  end.

(** [v[k]] with a string key. *)
Definition getitem (v : json) (k : string) : result json :=
  match v with
  | JObj kvs => match lookup k kvs with Some x => Ok x | None => Raise (KeyError k) end
  | _ => Raise TypeError
  end.

(** [for x in v]: the elements of a list, the keys of a dict, the
    characters of a string; nothing else is iterable. *)
Definition iter (v : json) : result (list json) :=
  match v with
  | JArr l => Ok l
  | JObj kvs => Ok (map (fun kv => JStr (fst kv)) kvs)
  | JStr s => Ok (map JStr (PyStr.chars s))
  | _ => Raise TypeError
  end.

(** [v == s] for a string literal [s]. *)
Definition eq_str (v : json) (s : string) : bool :=
  match v with
  | JStr t => String.eqb t s
  | _ => false
  end.

End Py.

(** ** Results that may raise *)

Definition rbind {A B} (c : result A) (k : A -> result B) : result B :=
  match c with
  | Ok a => k a
  | Raise e => Raise e
  end.

Notation "'let?' x := c 'in' k" := (rbind c (fun x => k))
  (at level 10, x name, c at level 100, k at level 200).

(** A loop that updates an accumulator and stops at the first exception. *)
Fixpoint fold_r {A B} (f : A -> B -> result B) (l : list A) (acc : B) : result B :=
  match l with
  | [] => Ok acc
  | x :: rest => let? acc' := f x acc in fold_r f rest acc'
  end.

(** A list comprehension [[x for x in l if p x]] whose test may raise. *)
Fixpoint filter_r {A} (p : A -> result bool) (l : list A) : result (list A) :=
  match l with
  | [] => Ok []
  | x :: rest =>
      let? keep := p x in
      let? rest' := filter_r p rest in
      Ok (if keep then x :: rest' else rest')
  end.

(** [len(l)] *)
Definition len {A} (l : list A) : Z := Z.of_nat (List.length l).

(** ** The world: commands, console, the verifier object *)

(** What [subprocess.run] hands back. *)
Record response : Type := mkResponse {
  stdout : string;
  stderr : string;
  returncode : Z
}.

(** A value interpolated into a printed line. *)
Inductive arg : Type :=
| AStr (s : string)
| AInt (n : Z)
| AJson (v : json).

Inductive event : Type :=
| Cmd (c : string)
| Print (fmt : string) (args : list arg).

(** The external commands answer from what happened so far. *)
Definition oracle : Type := list event -> string -> response.

Record K8sConnectivityVerifier : Type := mkVerifier {
  c1_context : string;
  c2_context : string;
  results : list (string * bool)
}.

Record state : Type := mkState {
  self : K8sConnectivityVerifier;
  trace : list event
}.

Definition emit (e : event) (s : state) : state :=
  {| self := self s; trace := (trace s ++ [e])%list |}.

(** The commands of a trace, in the order they ran. *)
Fixpoint commands (t : list event) : list string :=
  match t with
  | [] => []
  | Cmd c :: rest => c :: commands rest
  | Print _ _ :: rest => commands rest
  end.

(** Stateful computations that may raise. *)
Definition M (A : Type) : Type := state -> result A * state.

Definition ret {A} (a : A) : M A := fun s => (Ok a, s).

Definition bind {A B} (c : M A) (k : A -> M B) : M B :=
  fun s => match c s with
           | (Ok a, s') => k a s'
           | (Raise e, s') => (Raise e, s')
           end.

Definition lift {A} (r : result A) : M A := fun s => (r, s).

Notation "x <- c ;; k" := (bind c (fun x => k))
  (at level 61, c at next level, right associativity).
Notation "c ;; k" := (bind c (fun _ => k))
  (at level 61, right associativity).

Definition print (fmt : string) (args : list arg) : M unit :=
  fun s => (Ok tt, emit (Print fmt args) s).

Definition get_self : M K8sConnectivityVerifier := fun s => (Ok (self s), s).

Definition set_results (r : list (string * bool)) : M unit :=
  fun s => (Ok tt,
            {| self := {| c1_context := c1_context (self s);
                          c2_context := c2_context (self s);
                          results := r |};
               trace := trace s |}).

(** [for x in l: body x] *)
Fixpoint for_each {A} (l : list A) (body : A -> M unit) : M unit :=
  match l with
  | [] => ret tt
  | x :: rest => body x ;; for_each rest body
  end.

Definition nl : string := String (ascii_of_nat 10) EmptyString.

(** [print("=" * 60)] *)
Definition rule : M unit := print (PyStr.mul "=" 60) [].

(** A discovered public endpoint: the dict with keys name, namespace, ip. *)
Record endpoint : Type := mkEndpoint {
  name : json;
  namespace : json;
  ip : json
}.

(** ** The verifier *)

(** Set this to the EXTERNAL-IP of the C2 validation Service. *)
Definition C2_VALIDATION_IP : string := "13.91.126.20".

Section Verifier.

(** The outside world, and [json.loads]: [None] is [JSONDecodeError]. *)
Variable world : oracle.
Variable json_loads : string -> option json.

(** *** Helpers *)

Definition run_cmd (cmd : string) : M response :=
  fun s => (Ok (world (trace s) cmd), emit (Cmd cmd) s).

Definition exec_in_pod (context namespace pod cmd : string) : M response :=
  let full_cmd :=
    "kubectl --context " ++ context ++ " -n " ++ namespace
      ++ " exec " ++ pod ++ " -- " ++ cmd in
  run_cmd full_cmd.

(** [if stderr: print(f"  Error: {stderr.strip()}")] *)
Definition print_error (err : string) : M unit :=
  if PyStr.truthy err then print "  Error: {}" [AStr (PyStr.strip err)]
  else ret tt.

(** *** Test 1: intended connectivity C1 -> C2 validation *)

Definition get_dbg_cmd (c1 : string) : string :=
  "kubectl --context " ++ c1 ++ " -n boutique-core get pod net-debug "
    ++ "-o jsonpath='{.status.phase}'".

Definition url : string := "http://" ++ C2_VALIDATION_IP ++ ":80".

Definition curl_cmd : string := "curl -s -o - --max-time 5 " ++ url.

Definition test_intended_connectivity : M bool :=
  print (nl ++ "[TEST 1] Intended Cross-Cluster Connectivity (C1 -> C2 validation)") [] ;;
  rule ;;
  me <- get_self ;;
  r <- run_cmd (get_dbg_cmd (c1_context me)) ;;
  let phase := PyStr.strip (stdout r) in
  if negb (returncode r =? 0) || negb (String.eqb phase "Running") then
    print "❌ FAILED: net-debug pod is not running in C1 (namespace=boutique-core)" [] ;;
    print_error (stderr r) ;;
    ret false
  else
    print "✓ Found C1 net-debug pod in Running state" [] ;;
    p <- exec_in_pod (c1_context me) "boutique-core" "net-debug" curl_cmd ;;
    let body := PyStr.strip (stdout p) in
    if (returncode p =? 0) && PyStr.contains "OK-C2" body then
      print "✓ HTTP connectivity from C1 (net-debug) to C2 validation service OK" [] ;;
      print "  URL: {}" [AStr url] ;;
      print "  Response: {}" [AStr body] ;;
      print "✓ TEST 1 PASSED: Intended connectivity verified" [] ;;
      ret true
    else
      print "❌ FAILED: HTTP connectivity from C1 to C2 validation service failed" [] ;;
      print "  URL: {}" [AStr url] ;;
      print "  Command: {}" [AStr curl_cmd] ;;
      print "  Return code: {}" [AInt (returncode p)] ;;
      print "  Stdout: {}" [AStr (PyStr.strip (stdout p))] ;;
      print "  Stderr: {}" [AStr (PyStr.strip (stderr p))] ;;
      ret false.

(** *** Test 2: public exposure *)

Definition svc_list_cmd (context : string) : string :=
  "kubectl --context " ++ context ++ " get svc -A -o json".

(** The body of [for ing in ...]: one record per entry with a truthy ip. *)
Definition ingress_step (svc ing : json) (public_svcs : list endpoint)
  : result (list endpoint) :=
  let? addr := Py.get ing "ip" JNull in
  if Py.truthy addr then
    let? md := Py.getitem svc "metadata" in
    let? n := Py.getitem md "name" in
    let? md' := Py.getitem svc "metadata" in
    let? ns := Py.getitem md' "namespace" in
    Ok (public_svcs ++ [{| name := n; namespace := ns; ip := addr |}])%list
  else Ok public_svcs.

(** The body of [for svc in services.get("items", [])]. *)
Definition svc_step (svc : json) (public_svcs : list endpoint)
  : result (list endpoint) :=
  let? spec := Py.get svc "spec" (JObj []) in
  let? ty := Py.get spec "type" JNull in
  if negb (Py.eq_str ty "LoadBalancer") then Ok public_svcs
  else
    let? status := Py.get svc "status" (JObj []) in
    let? lb_status := Py.get status "loadBalancer" (JObj []) in
    let? ingress := Py.get lb_status "ingress" (JArr []) in
    let? ings := Py.iter (if Py.truthy ingress then ingress else JArr []) in
    fold_r (ingress_step svc) ings public_svcs.

(** The two loops that follow a successful parse. *)
Definition collect_public_svcs (services : json) : result (list endpoint) :=
  let? items := Py.get services "items" (JArr []) in
  let? svcs := Py.iter items in
  fold_r svc_step svcs [].

Definition list_public_loadbalancers (context : string) : M (list endpoint) :=
  r <- run_cmd (svc_list_cmd context) ;;
  if negb (returncode r =? 0) then
    print "⚠️  Could not list services for context {}" [AStr context] ;;
    print_error (stderr r) ;;
    ret []
  else
    match json_loads (stdout r) with
    | None =>
        print "⚠️  Failed to parse services JSON for context {}" [AStr context] ;;
        ret []
    | Some services => lift (collect_public_svcs services)
    end.

Definition allowed_keywords : list string := ["frontend"; "c2-validation"].

(** [s["name"].lower()] *)
Definition name_lower (s : endpoint) : result string :=
  match name s with
  | JStr n => Ok (PyStr.lower n)
  | _ => Raise AttributeError
  end.

(** [any(kw in s["name"].lower() for kw in kws)] *)
Fixpoint any_keyword (kws : list string) (s : endpoint) : result bool :=
  match kws with
  | [] => Ok false
  | kw :: rest =>
      let? n := name_lower s in
      if PyStr.contains kw n then Ok true else any_keyword rest s
  end.

Definition critical (s : endpoint) : result bool :=
  let? allowed := any_keyword allowed_keywords s in Ok (negb allowed).

Definition print_endpoint (svc : endpoint) : M unit :=
  print "   - {}/{}: {}" [AJson (namespace svc); AJson (name svc); AJson (ip svc)].

(** The [for context, cluster_name in ...] loop; [Some b] is [return b]
    from inside the loop, [None] is falling out of it. *)
Fixpoint exposure_loop (clusters : list (string * string)) : M (option bool) :=
  match clusters with
  | [] => ret None
  | (context, cluster_name) :: rest =>
      public_svcs <- list_public_loadbalancers context ;;
      match public_svcs with
      | _ :: _ =>
          print "⚠️  {} has publicly exposed LoadBalancer services:" [AStr cluster_name] ;;
          for_each public_svcs print_endpoint ;;
          critical_public <- lift (filter_r critical public_svcs) ;;
          match critical_public with
          | _ :: _ =>
              print "❌ FAILED: Non-allowed services exposed publicly:" [] ;;
              for_each critical_public print_endpoint ;;
              ret (Some false)
          | [] => exposure_loop rest
          end
      | [] =>
          print "✓ {}: No public LoadBalancer services with external IPs"
                [AStr cluster_name] ;;
          exposure_loop rest
      end
  end.

Definition test_public_exposure : M bool :=
  print (nl ++ "[TEST 2] Public Exposure Check") [] ;;
  rule ;;
  me <- get_self ;;
  returned <- exposure_loop [(c1_context me, "C1"); (c2_context me, "C2")] ;;
  match returned with
  | Some b => ret b
  | None =>
      print "✓ TEST 2 PASSED: Public exposure acceptable" [] ;;
      ret true
  end.

(** *** Test 3: network isolation via NSGs *)

Definition nsg_list_cmd (rg : string) : string :=
  "az network nsg list --resource-group " ++ rg ++ " -o json".

(** [[r for r in rules if r.get("access") == v]] *)
Definition rules_with_access (rules : json) (v : string) : result (list json) :=
  let? rs := Py.iter rules in
  filter_r (fun r => let? a := Py.get r "access" JNull in Ok (Py.eq_str a v)) rs.

(** The body of [for nsg in nsgs]. *)
Definition summarize_nsg (cluster_name : string) (nsg : json) : M unit :=
  nm <- lift (Py.get nsg "name" (JStr "<unknown>")) ;;
  rules <- lift (Py.get nsg "securityRules" (JArr [])) ;;
  allow_rules <- lift (rules_with_access rules "Allow") ;;
  deny_rules <- lift (rules_with_access rules "Deny") ;;
  print "✓ {} NSG '{}': {} allow rules, {} deny rules"
        [AStr cluster_name; AJson nm; AInt (len allow_rules); AInt (len deny_rules)].

(** The [for _, cluster_name, rg in cluster_nsg_config] loop, threading
    the local [ok]. *)
Fixpoint isolation_loop (config : list (string * string * string)) (ok : bool)
  : M bool :=
  match config with
  | [] => ret ok
  | (_, cluster_name, rg) :: rest =>
      r <- run_cmd (nsg_list_cmd rg) ;;
      if negb (returncode r =? 0) then
        print "⚠️  Could not list NSGs for {} (rg={})" [AStr cluster_name; AStr rg] ;;
        print_error (stderr r) ;;
        isolation_loop rest false
      else
        match json_loads (stdout r) with
        | None =>
            print "⚠️  Failed to parse NSG JSON for {} (rg={})"
                  [AStr cluster_name; AStr rg] ;;
            isolation_loop rest false
        | Some nsgs =>
            if negb (Py.truthy nsgs) then
              print "⚠️  No NSGs found in {} (rg={})" [AStr cluster_name; AStr rg] ;;
              isolation_loop rest ok
            else
              groups <- lift (Py.iter nsgs) ;;
              for_each groups (summarize_nsg cluster_name) ;;
              isolation_loop rest ok
        end
  end.

Definition test_network_isolation : M bool :=
  print (nl ++ "[TEST 3] Network Isolation (NSG Summary)") [] ;;
  rule ;;
  me <- get_self ;;
  ok <- isolation_loop [(c1_context me, "C1", "rg-c1-eastus");
                        (c2_context me, "C2", "rg-c2-westus")] true ;;
  (if ok then
     print "✓ TEST 3 PASSED: Network isolation configured (NSGs present and summarized)" []
   else
     print "⚠️ TEST 3 COMPLETED WITH WARNINGS: Some NSG data could not be retrieved" []) ;;
  ret ok.

(** *** Orchestrator *)

(** [all(results.values())] *)
Definition all_values (r : list (string * bool)) : bool := forallb snd r.

Definition verify_all : M (list (string * bool)) :=
  print (nl ++ PyStr.mul "=" 60) [] ;;
  print "SECURITY POSTURE VERIFICATION REPORT" [] ;;
  rule ;;
  a <- test_intended_connectivity ;;
  b <- test_public_exposure ;;
  c <- test_network_isolation ;;
  let report := [("intended_connectivity", a);
                 ("public_exposure", b);
                 ("network_isolation", c)] in
  set_results report ;;
  print (nl ++ PyStr.mul "=" 60) [] ;;
  print "VERIFICATION SUMMARY" [] ;;
  rule ;;
  for_each report
    (fun tp => print "{}: {}"
                 [AStr (if snd tp then "✓ PASS" else "❌ FAIL"); AStr (fst tp)]) ;;
  let all_passed := all_values report in
  print (nl ++ "Overall: {}")
        [AStr (if all_passed then "✓ ALL TESTS PASSED" else "❌ SOME TESTS FAILED")] ;;
  ret report.

End Verifier.

(** ** Fixtures: concrete worlds to run the verifier in *)

Module Fixture.

Definition dq : string := String (ascii_of_nat 34) EmptyString.

Definition decimal (n : Z) : string :=
  DecimalString.NilZero.string_of_int (Z.to_int n).

(** The text [json.dumps] writes for a value, for the values of the
    fixtures: strings without characters that need escaping, and no
    floats (one would be written as NaN). *)
Fixpoint dumps (v : json) : string :=
  match v with
  | JNull => "null"
  | JBool true => "true"
  | JBool false => "false"
  | JInt n => decimal n
  | JFloat _ => "NaN"
  | JStr s => dq ++ s ++ dq
  | JArr l =>
      "[" ++ (fix elems (l : list json) : string :=
                match l with
                | [] => ""
                | x :: rest =>
                    match rest with
                    | [] => dumps x
                    | _ :: _ => dumps x ++ ", " ++ elems rest
                    end
                end) l ++ "]"
  | JObj kvs =>
      "{" ++ (fix members (kvs : list (string * json)) : string :=
                match kvs with
                | [] => ""
                | (k, x) :: rest =>
                    match rest with
                    | [] => dq ++ k ++ dq ++ ": " ++ dumps x
                    | _ :: _ => dq ++ k ++ dq ++ ": " ++ dumps x ++ ", " ++ members rest
                    end
                end) kvs ++ "}"
  end.

(** A parser that knows the given documents by their text and rejects
    every other text. *)
Definition loads_of (docs : list json) (text : string) : option json :=
  find (fun v => String.eqb (dumps v) text) docs.

Definition ok_response (out : string) : response :=
  {| stdout := out; stderr := ""; returncode := 0 |}.

Definition failed_response (err : string) : response :=
  {| stdout := ""; stderr := err; returncode := 1 |}.

(** A world that answers each command from a script, whatever happened
    before; a command the script does not know is not found. *)
Fixpoint scripted (script : list (string * response)) : oracle :=
  fun history cmd =>
    match script with
    | [] => {| stdout := ""; stderr := "command not found"; returncode := 127 |}
    | (c, r) :: rest => if String.eqb c cmd then r else scripted rest history cmd
    end.

Definition verifier : K8sConnectivityVerifier :=
  {| c1_context := "aks-c1-eastus"; c2_context := "aks-c2-westus"; results := [] |}.

Definition start : state := {| self := verifier; trace := [] |}.

(** A LoadBalancer service with one ingress address. *)
Definition lb_service (nm ns addr : string) : json :=
  JObj [("metadata", JObj [("name", JStr nm); ("namespace", JStr ns)]);
        ("spec", JObj [("type", JStr "LoadBalancer")]);
        ("status", JObj [("loadBalancer",
                          JObj [("ingress", JArr [JObj [("ip", JStr addr)]])])])].

Definition services (items : list json) : json := JObj [("items", JArr items)].

Definition rule_with (access : string) : json := JObj [("access", JStr access)].

Definition nsg1 : json :=
  JObj [("name", JStr "nsg1");
        ("securityRules", JArr [rule_with "Allow"; rule_with "Deny"; rule_with "Allow"])].

Definition frontend_and_admin : json :=
  services [lb_service "frontend-svc" "default" "1.2.3.4";
            lb_service "admin-svc" "default" "5.6.7.8"].

Definition frontend_only : json :=
  services [lb_service "Frontend-External" "shop" "20.1.2.3"].

Definition frontend_ep : endpoint :=
  {| name := JStr "frontend-svc"; namespace := JStr "default"; ip := JStr "1.2.3.4" |}.

Definition admin_ep : endpoint :=
  {| name := JStr "admin-svc"; namespace := JStr "default"; ip := JStr "5.6.7.8" |}.

Definition external_ep : endpoint :=
  {| name := JStr "Frontend-External"; namespace := JStr "shop"; ip := JStr "20.1.2.3" |}.

(** Items with every kind of missing structure, and three addresses. *)
Definition mixed_items : list json :=
    [JObj [("metadata", JObj [("name", JStr "headless"); ("namespace", JStr "default")])];
     JObj [("metadata", JObj [("name", JStr "cartservice"); ("namespace", JStr "default")]);
           ("spec", JObj [("type", JStr "ClusterIP")])];
     JObj [("spec", JObj [("type", JStr "LoadBalancer")])];
     JObj [("spec", JObj [("type", JStr "LoadBalancer")]); ("status", JObj [])];
     JObj [("spec", JObj [("type", JStr "LoadBalancer")]);
           ("status", JObj [("loadBalancer", JObj [])])];
     JObj [("spec", JObj [("type", JStr "LoadBalancer")]);
           ("status", JObj [("loadBalancer", JObj [("ingress", JNull)])])];
     JObj [("metadata", JObj [("name", JStr "frontend-external"); ("namespace", JStr "shop")]);
           ("spec", JObj [("type", JStr "LoadBalancer")]);
           ("status",
            JObj [("loadBalancer",
                   JObj [("ingress", JArr [JObj [("hostname", JStr "lb.example.org")];
                                           JObj [("ip", JStr "20.1.2.3")];
                                           JObj [("ip", JStr "")]])])])];
     JObj [("metadata", JObj [("name", JStr "c2-validation"); ("namespace", JStr "c2")]);
           ("spec", JObj [("type", JStr "LoadBalancer")]);
           ("status",
            JObj [("loadBalancer",
                   JObj [("ingress", JArr [JObj [("ip", JStr "13.91.126.20")];
                                           JObj [("ip", JStr "13.91.126.21")]])])])]].

Definition mixed_listing : json := services mixed_items.

(** The documents the fixture parser knows. *)
Definition loads : string -> option json :=
  loads_of [services []; frontend_and_admin; frontend_only; mixed_listing;
            JArr [nsg1]; JArr []].

Definition phase_cmd : string := get_dbg_cmd "aks-c1-eastus".

Definition exec_cmd : string :=
  "kubectl --context aks-c1-eastus -n boutique-core exec net-debug -- " ++ curl_cmd.

(** Everything in order: the probe answers, nothing is exposed, one rule
    group per cluster. *)
Definition world_pass : oracle :=
  scripted [(phase_cmd, ok_response "Running");
            (exec_cmd, ok_response "OK-C2 from C2");
            (svc_list_cmd "aks-c1-eastus", ok_response (dumps (services [])));
            (svc_list_cmd "aks-c2-westus", ok_response (dumps (services [])));
            (nsg_list_cmd "rg-c1-eastus", ok_response (dumps (JArr [nsg1])));
            (nsg_list_cmd "rg-c2-westus", ok_response (dumps (JArr [nsg1])))].

(** Everything fails: the probe pod is pending, admin-svc is exposed in
    C1, C1 has no rule group and the rule groups of C2 cannot be listed. *)
Definition world_fail : oracle :=
  scripted [(phase_cmd, ok_response "Pending");
            (svc_list_cmd "aks-c1-eastus", ok_response (dumps frontend_and_admin));
            (svc_list_cmd "aks-c2-westus", ok_response (dumps (services [])));
            (nsg_list_cmd "rg-c1-eastus", ok_response (dumps (JArr [])));
            (nsg_list_cmd "rg-c2-westus", failed_response "AuthorizationFailed")].

(** The services of C1 cannot be listed; C2 exposes its frontend. *)
Definition world_c1_down : oracle :=
  scripted [(svc_list_cmd "aks-c1-eastus", failed_response "Unable to connect to the server");
            (svc_list_cmd "aks-c2-westus", ok_response (dumps frontend_only))].

Definition world_mixed : oracle :=
  scripted [(svc_list_cmd "aks-c1-eastus", ok_response (dumps mixed_listing))].

End Fixture.

(** ** Strings: what [in] and [strip] mean *)

Example strip_phase :
  PyStr.strip (" Running" ++ nl) = "Running" /\ PyStr.strip "Not Running " = "Not Running".
Proof. split; reflexivity. Qed.

(** The UTF-8 encodings of the characters [str.strip] removes. *)
Definition whitespace : list string :=
  map (fun l => string_of_list_ascii (map ascii_of_nat l))
      [[9]; [10]; [11]; [12]; [13]; [28]; [29]; [30]; [31]; [32];
       [194; 133]; [194; 160]; [225; 154; 128];
       [226; 128; 128]; [226; 128; 129]; [226; 128; 130]; [226; 128; 131];
       [226; 128; 132]; [226; 128; 133]; [226; 128; 134]; [226; 128; 135];
       [226; 128; 136]; [226; 128; 137]; [226; 128; 138];
       [226; 128; 168]; [226; 128; 169]; [226; 128; 175];
       [226; 129; 159]; [227; 128; 128]]%nat.

Lemma lstrip_whitespace w s : In w whitespace -> PyStr.lstrip (w ++ s) = PyStr.lstrip s.
Proof.
  intros H. unfold whitespace in H. cbn [map string_of_list_ascii] in H.
  repeat (destruct H as [<-|H]; [reflexivity|]). destruct H.
Qed.

Lemma strip_whitespace_only w : In w whitespace -> PyStr.strip w = "".
Proof.
  intros H. unfold whitespace in H. cbn [map string_of_list_ascii] in H.
  repeat (destruct H as [<-|H]; [reflexivity|]). destruct H.
Qed.

(** A no-break space (U+00A0) and a line separator (U+2028) are stripped
    like a blank; a zero-width space (U+200B) is not. *)
Example strip_phase_unicode :
  let nbsp := string_of_list_ascii (map ascii_of_nat [194; 160]%nat) in
  let line_separator := string_of_list_ascii (map ascii_of_nat [226; 128; 168]%nat) in
  let zero_width := string_of_list_ascii (map ascii_of_nat [226; 128; 139]%nat) in
  PyStr.strip ("Running" ++ nbsp) = "Running"
  /\ PyStr.strip (line_separator ++ nbsp ++ " Running" ++ nbsp ++ nl) = "Running"
  /\ PyStr.strip ("Running" ++ zero_width) = "Running" ++ zero_width
  /\ PyStr.strip ("Not" ++ nbsp ++ "Running") = "Not" ++ nbsp ++ "Running".
Proof. repeat split; reflexivity. Qed.

Example lower_name : PyStr.lower "Frontend-External_2" = "frontend-external_2".
Proof. reflexivity. Qed.

Example marker_in_body :
  PyStr.contains "OK-C2" "hello OK-C2 from C2" = true
  /\ PyStr.contains "OK-C2" "ok-c2" = false
  /\ PyStr.contains "OK-C2" "" = false.
Proof. repeat split; reflexivity. Qed.

Example truthiness :
  map Py.truthy [JNull; JStr ""; JInt 0; JFloat PrimFloat.zero; JArr []; JObj [];
                 JStr "10.0.0.1"; JInt 7; JArr [JNull]]
  = [false; false; false; false; false; false; true; true; true].
Proof. reflexivity. Qed.

Lemma prefix_app (n h : string) :
  prefix n h = true <-> exists post, h = n ++ post.
Proof.
  revert h; induction n as [|c n IH]; intros h.
  - destruct h; simpl; (split; [intros _; eexists; reflexivity | reflexivity]).
  - destruct h as [|d h]; simpl.
    + split; [discriminate | intros [post H]; discriminate].
    + destruct (Ascii.ascii_dec c d) as [->|ne].
      * rewrite IH. split; intros [post H]; exists post.
        -- now rewrite H.
        -- now injection H.
      * split; [discriminate | intros [post H]; injection H; congruence].
Qed.

Lemma contains_app (n h : string) :
  PyStr.contains n h = true <-> exists pre post, h = pre ++ n ++ post.
Proof.
  induction h as [|d h IH].
  - cbn [PyStr.contains]. destruct (prefix n "") eqn:P.
    + apply prefix_app in P as [post P]. split; [intros _; now exists "", post | reflexivity].
    + split; [discriminate|]. intros [pre [post H]].
      destruct pre; simpl in H; [|discriminate].
      assert (prefix n "" = true) by (apply prefix_app; now exists post). congruence.
  - cbn [PyStr.contains]. destruct (prefix n (String d h)) eqn:P.
    + apply prefix_app in P as [post P]. split; [intros _; now exists "", post | reflexivity].
    + rewrite IH. split.
      * intros [pre [post H]]. exists (String d pre), post. now rewrite H.
      * intros [pre [post H]]. destruct pre as [|e pre]; simpl in H.
        -- assert (prefix n (String d h) = true) by (apply prefix_app; now exists post).
           congruence.
        -- injection H as _ H. now exists pre, post.
Qed.

Lemma append_inj_l (a x y : string) : a ++ x = a ++ y -> x = y.
Proof. induction a; simpl; [auto | intros H; injection H; auto]. Qed.

(** ** States and traces *)

(** The state after the events [evs] happened in [s]. *)
Definition after (s : state) (evs : list event) : state :=
  {| self := self s; trace := trace s ++ evs |}.

Lemma emit_after e s evs : emit e (after s evs) = after s (evs ++ [e]).
Proof. unfold emit, after; simpl. now rewrite app_assoc. Qed.

Lemma emit_start e s : emit e s = after s [e].
Proof. reflexivity. Qed.

Lemma after_after s e1 e2 : after (after s e1) e2 = after s (e1 ++ e2).
Proof. unfold after; simpl. now rewrite app_assoc. Qed.

Lemma after_nil s : after s [] = s.
Proof. destruct s; unfold after; simpl. now rewrite app_nil_r. Qed.

Lemma self_after s evs : self (after s evs) = self s.
Proof. reflexivity. Qed.

Lemma trace_after s evs : trace (after s evs) = (trace s ++ evs)%list.
Proof. reflexivity. Qed.

Lemma commands_app t u : commands (t ++ u) = (commands t ++ commands u)%list.
Proof.
  induction t as [|[c|f a] t IH]; simpl; [reflexivity| |assumption].
  now rewrite IH.
Qed.

Lemma In_commands c t : In (Cmd c) t -> In c (commands t).
Proof.
  induction t as [|[d|f a] t IH]; simpl; [tauto| |].
  - intros [H|H]; [injection H; auto | auto].
  - intros [H|H]; [discriminate | auto].
Qed.

(** [if stderr: print(...)] as events. *)
Definition error_lines (err : string) : list event :=
  if PyStr.truthy err then [Print "  Error: {}" [AStr (PyStr.strip err)]] else [].

Lemma print_error_after err s evs :
  print_error err (after s evs) = (Ok tt, after s (evs ++ error_lines err)).
Proof.
  unfold print_error, error_lines. destruct (PyStr.truthy err).
  - unfold print. now rewrite emit_after.
  - unfold ret. now rewrite app_nil_r.
Qed.

Lemma for_each_print_after {A} (l : list A) (line : A -> event) body s evs :
  (forall x t, body x t = (Ok tt, emit (line x) t)) ->
  for_each l body (after s evs) = (Ok tt, after s (evs ++ map line l)).
Proof.
  intros Hb. revert evs; induction l as [|x l IH]; intros evs; simpl.
  - unfold ret. now rewrite app_nil_r.
  - unfold bind. rewrite Hb, emit_after, IH. now rewrite <- app_assoc.
Qed.

(** Steps a computation through its prints and binds. *)
Ltac step :=
  repeat (unfold bind, print, get_self, ret, lift, rule, run_cmd, exec_in_pod;
          cbn [fst snd self trace];
          rewrite ?emit_after, ?print_error_after, ?after_after,
                  ?self_after, ?trace_after;
          cbn [app]).

(** ** Test 1 *)

Section Connectivity.

Variable world : oracle.

Definition banner1 : list event :=
  [Print (nl ++ "[TEST 1] Intended Cross-Cluster Connectivity (C1 -> C2 validation)") [];
   Print (PyStr.mul "=" 60) []].

Definition probe_cmd (c1 : string) : string :=
  "kubectl --context " ++ c1 ++ " -n boutique-core exec net-debug -- " ++ curl_cmd.

(** What the world answers to the phase query of a run started in [s]. *)
Definition phase_reply (s : state) : response :=
  world (trace s ++ banner1)%list (get_dbg_cmd (c1_context (self s))).

(** What the [FAILED] branch of the gate leaves behind. *)
Definition gate_events (s : state) : list event :=
  (banner1 ++
   [Cmd (get_dbg_cmd (c1_context (self s)));
    Print "❌ FAILED: net-debug pod is not running in C1 (namespace=boutique-core)" []]
   ++ error_lines (stderr (phase_reply s)))%list.

(** What the world answers to the probe, once the gate has passed. *)
Definition probe_reply (s : state) : response :=
  world (trace s ++ banner1 ++
         [Cmd (get_dbg_cmd (c1_context (self s)));
          Print "✓ Found C1 net-debug pod in Running state" []])%list
        (probe_cmd (c1_context (self s))).

(** The verdict of the probe: [rc == 0 and "OK-C2" in body]. *)
Definition probe_ok (s : state) : bool :=
  (returncode (probe_reply s) =? 0)
  && PyStr.contains "OK-C2" (PyStr.strip (stdout (probe_reply s))).

(** What a run leaves behind once the gate has passed. *)
Definition probe_events (s : state) : list event :=
  (banner1 ++
   [Cmd (get_dbg_cmd (c1_context (self s)));
    Print "✓ Found C1 net-debug pod in Running state" [];
    Cmd (probe_cmd (c1_context (self s)))] ++
   if probe_ok s then
     [Print "✓ HTTP connectivity from C1 (net-debug) to C2 validation service OK" [];
      Print "  URL: {}" [AStr url];
      Print "  Response: {}" [AStr (PyStr.strip (stdout (probe_reply s)))];
      Print "✓ TEST 1 PASSED: Intended connectivity verified" []]
   else
     [Print "❌ FAILED: HTTP connectivity from C1 to C2 validation service failed" [];
      Print "  URL: {}" [AStr url];
      Print "  Command: {}" [AStr curl_cmd];
      Print "  Return code: {}" [AInt (returncode (probe_reply s))];
      Print "  Stdout: {}" [AStr (PyStr.strip (stdout (probe_reply s)))];
      Print "  Stderr: {}" [AStr (PyStr.strip (stderr (probe_reply s)))]])%list.

Lemma probe_is_not_phase_query c1 : probe_cmd c1 <> get_dbg_cmd c1.
Proof.
  unfold probe_cmd, get_dbg_cmd. intros H.
  apply (append_inj_l "kubectl --context ") in H.
  apply append_inj_l in H. discriminate H.
Qed.

Lemma gate_closed s :
  returncode (phase_reply s) <> 0 \/ PyStr.strip (stdout (phase_reply s)) <> "Running" ->
  test_intended_connectivity world s = (Ok false, after s (gate_events s)).
Proof.
  intros H. unfold test_intended_connectivity, gate_events.
  rewrite <- (after_nil s) at 1. step.
  change (world _ (get_dbg_cmd _)) with (phase_reply s).
  destruct (phase_reply s) as [out err rc]; cbn [returncode stdout stderr] in *.
  replace (negb (rc =? 0) || negb (PyStr.strip out =? "Running")%string) with true.
  - step. reflexivity.
  - symmetry. apply orb_true_iff. destruct H as [H|H].
    + left. apply negb_true_iff, Z.eqb_neq, H.
    + right. apply negb_true_iff, String.eqb_neq, H.
Qed.

Lemma gate_open s :
  returncode (phase_reply s) = 0 -> PyStr.strip (stdout (phase_reply s)) = "Running" ->
  test_intended_connectivity world s = (Ok (probe_ok s), after s (probe_events s)).
Proof.
  intros Hrc Hph. unfold test_intended_connectivity, probe_events, probe_ok.
  rewrite <- (after_nil s) at 1. step.
  change (world _ (get_dbg_cmd _)) with (phase_reply s).
  rewrite Hrc, Hph. cbn [Z.eqb negb orb String.eqb Ascii.eqb Bool.eqb].
  step.
  change (world _ _) with (probe_reply s).
  destruct (probe_reply s) as [out err rc]; cbn [returncode stdout stderr].
  destruct ((rc =? 0) && PyStr.contains "OK-C2" (PyStr.strip out)); step; reflexivity.
Qed.

(** C3. Whenever the phase query exits non-zero or its stripped output is
    not exactly Running, the connectivity check returns false, and the only
    command it has run is the phase query: the HTTP probe is never executed
    in the pod. *)
Theorem precondition_gate_blocks_probe (s : state) :
  returncode (phase_reply s) <> 0
  \/ PyStr.strip (stdout (phase_reply s)) <> "Running" ->
  exists evs,
    test_intended_connectivity world s = (Ok false, after s evs)
    /\ commands evs = [get_dbg_cmd (c1_context (self s))]
    /\ ~ In (Cmd (probe_cmd (c1_context (self s)))) evs.
Proof.
  intros H. exists (gate_events s). split; [now apply gate_closed|].
  assert (C : commands (gate_events s) = [get_dbg_cmd (c1_context (self s))]).
  { unfold gate_events, error_lines.
    now destruct (PyStr.truthy (stderr (phase_reply s))). }
  split; [exact C|].
  intros F. apply In_commands in F. rewrite C in F.
  destruct F as [F|[]]. symmetry in F. now apply probe_is_not_phase_query in F.
Qed.

(** C4. Once the gate has passed (exit code 0 and phase Running), the
    connectivity check runs the probe and returns a boolean that is true
    exactly when the probe's exit code is 0 and its stripped output contains
    the substring OK-C2; in every other case it returns false. *)
Theorem probe_decides_connectivity (s : state) :
  returncode (phase_reply s) = 0 ->
  PyStr.strip (stdout (phase_reply s)) = "Running" ->
  exists b evs,
    test_intended_connectivity world s = (Ok b, after s evs)
    /\ In (Cmd (probe_cmd (c1_context (self s)))) evs
    /\ (b = true <->
        returncode (probe_reply s) = 0
        /\ exists pre post,
             PyStr.strip (stdout (probe_reply s)) = pre ++ "OK-C2" ++ post)
    /\ (b = false <->
        returncode (probe_reply s) <> 0
        \/ ~ exists pre post,
               PyStr.strip (stdout (probe_reply s)) = pre ++ "OK-C2" ++ post).
Proof.
  intros Hrc Hph. exists (probe_ok s), (probe_events s).
  split; [now apply gate_open|]. split.
  - unfold probe_events, banner1. cbn [app In]. auto 6.
  - unfold probe_ok. rewrite <- contains_app, <- Z.eqb_eq.
    destruct (returncode (probe_reply s) =? 0), (PyStr.contains _ _); cbn [andb];
      intuition congruence.
Qed.

End Connectivity.


(** ** Test 2 *)

(** *** Case-insensitive containment *)

Lemma lower_app a b : PyStr.lower (a ++ b) = PyStr.lower a ++ PyStr.lower b.
Proof. induction a as [|c a IH]; simpl; [reflexivity | now rewrite IH]. Qed.

Lemma lower_split n a b :
  PyStr.lower n = a ++ b ->
  exists a' b', n = a' ++ b' /\ PyStr.lower a' = a /\ PyStr.lower b' = b.
Proof.
  revert n; induction a as [|c a IH]; intros n H; simpl in H.
  - now exists "", n.
  - destruct n as [|d n]; simpl in H; [discriminate|].
    injection H as Hc H. apply IH in H as (a' & b' & -> & <- & <-).
    exists (String d a'), b'. simpl. now rewrite Hc.
Qed.

(** [kw] occurs in [n] when letter case is ignored: some piece of [n]
    has the same lower-case form as [kw]. *)
Definition occurs_ignoring_case (kw n : string) : Prop :=
  exists pre mid post, n = pre ++ mid ++ post /\ PyStr.lower mid = PyStr.lower kw.

Lemma contains_lower kw n :
  PyStr.lower kw = kw ->
  (PyStr.contains kw (PyStr.lower n) = true <-> occurs_ignoring_case kw n).
Proof.
  intros Hkw. rewrite contains_app. split.
  - intros (pre & post & H).
    apply lower_split in H as (pre' & rest & -> & _ & H).
    apply lower_split in H as (mid & post' & -> & H & _).
    exists pre', mid, post'. now rewrite Hkw.
  - intros (pre & mid & post & -> & H).
    exists (PyStr.lower pre), (PyStr.lower post).
    now rewrite !lower_app, H, Hkw.
Qed.

(** An endpoint the allow-list covers: its name is a string in which
    frontend or c2-validation occurs, letter case ignored. *)
Definition allow_listed (ep : endpoint) : Prop :=
  exists n, name ep = JStr n
            /\ (occurs_ignoring_case "frontend" n \/ occurs_ignoring_case "c2-validation" n).

(** An endpoint whose name contains none of the allow-list keywords. *)
Definition not_allow_listed (ep : endpoint) : Prop :=
  exists n, name ep = JStr n
            /\ ~ occurs_ignoring_case "frontend" n
            /\ ~ occurs_ignoring_case "c2-validation" n.

(** The name of an endpoint is a string, as the cluster reports it. *)
Definition named (ep : endpoint) : Prop := exists n, name ep = JStr n.

Lemma critical_named ep :
  named ep -> exists b, critical ep = Ok b
                        /\ (b = true <-> not_allow_listed ep)
                        /\ (b = false <-> allow_listed ep).
Proof.
  intros [n Hn]. unfold critical, any_keyword, allowed_keywords, name_lower.
  rewrite Hn. cbn [rbind].
  pose proof (contains_lower "frontend" n eq_refl) as F.
  pose proof (contains_lower "c2-validation" n eq_refl) as V.
  unfold allow_listed, not_allow_listed.
  destruct (PyStr.contains "frontend" (PyStr.lower n)); cbn [rbind negb].
  - exists false. split; [reflexivity|]. split.
    + split; [discriminate|]. intros (m & Hm & A & _). rewrite Hn in Hm.
      injection Hm as <-. exfalso. apply A, F; reflexivity.
    + split; [|reflexivity]. intros _. exists n. split; [assumption|].
      left. now apply F.
  - destruct (PyStr.contains "c2-validation" (PyStr.lower n)); cbn [rbind negb].
    + exists false. split; [reflexivity|]. split.
      * split; [discriminate|]. intros (m & Hm & _ & A). rewrite Hn in Hm.
        injection Hm as <-. exfalso. apply A, V; reflexivity.
      * split; [|reflexivity]. intros _. exists n. split; [assumption|].
        right. now apply V.
    + exists true. split; [reflexivity|]. split.
      * split; [|reflexivity]. intros _. exists n. split; [assumption|].
        split; intros A; [apply F in A | apply V in A]; discriminate.
      * split; [discriminate|]. intros (m & Hm & [A|A]); rewrite Hn in Hm;
          injection Hm as <-; [apply F in A | apply V in A]; discriminate.
Qed.

Lemma allow_listed_named ep : allow_listed ep -> named ep.
Proof. intros (n & H & _). now exists n. Qed.

Lemma not_allow_listed_named ep : not_allow_listed ep -> named ep.
Proof. intros (n & H & _). now exists n. Qed.

(** On named endpoints the comprehension never raises; it is empty exactly
    when every endpoint is allow-listed. *)
Lemma critical_public_named eps :
  Forall named eps ->
  exists crit, filter_r critical eps = Ok crit
               /\ (crit = [] <-> Forall allow_listed eps)
               /\ (crit <> [] <-> Exists not_allow_listed eps).
Proof.
  induction 1 as [|ep eps Hep Heps (crit & E & A & N)]; cbn [filter_r].
  - exists []. split; [reflexivity|]. split.
    + split; auto.
    + split; [congruence|]. intros H; inversion H.
  - destruct (critical_named ep Hep) as (b & Eb & Bt & Bf).
    rewrite Eb, E. cbn [rbind]. destruct b.
    + exists (ep :: crit). split; [reflexivity|]. split.
      * split; [discriminate|]. intros H; inversion H as [|? ? Ha _]; subst.
        apply Bf in Ha. discriminate.
      * split; [|discriminate]. intros _. left. now apply Bt.
    + exists crit. split; [reflexivity|]. split.
      * rewrite A. split.
        -- intros H. constructor; [now apply Bf | assumption].
        -- intros H; now inversion H.
      * rewrite N. split.
        -- intros H; now right.
        -- intros H; inversion H as [? ? Hn|]; subst; [|assumption].
           apply Bt in Hn. discriminate.
Qed.

(** The violators of a listing: its endpoints outside the allow-list, in
    the order of the listing. *)
Inductive violators : list endpoint -> list endpoint -> Prop :=
| violators_nil : violators [] []
| violators_keep ep eps crit :
    not_allow_listed ep -> violators eps crit -> violators (ep :: eps) (ep :: crit)
| violators_skip ep eps crit :
    allow_listed ep -> violators eps crit -> violators (ep :: eps) crit.

(** On named endpoints the comprehension returns the violators. *)
Lemma critical_public_violators eps :
  Forall named eps ->
  exists crit, filter_r critical eps = Ok crit /\ violators eps crit.
Proof.
  induction 1 as [|ep eps Hep Heps (crit & E & V)]; cbn [filter_r].
  - exists []. split; [reflexivity | constructor].
  - destruct (critical_named ep Hep) as (b & Eb & Bt & Bf).
    rewrite Eb, E. cbn [rbind]. destruct b.
    + exists (ep :: crit). split; [reflexivity|].
      apply violators_keep; [now apply Bt | exact V].
    + exists crit. split; [reflexivity|].
      apply violators_skip; [now apply Bf | exact V].
Qed.

Lemma violators_exist eps crit :
  violators eps crit -> Exists not_allow_listed eps -> crit <> [].
Proof.
  induction 1 as [|ep eps crit N V IH|ep eps crit A V IH]; intros X.
  - inversion X.
  - discriminate.
  - apply IH. inversion X as [? ? Hn|]; subst; [|assumption].
    destruct (critical_named ep (allow_listed_named ep A)) as (b & _ & T & F).
    apply T in Hn. apply F in A. congruence.
Qed.

Section Exposure.

Variable world : oracle.
Variable json_loads : string -> option json.

Definition banner2 : list event :=
  [Print (nl ++ "[TEST 2] Public Exposure Check") []; Print (PyStr.mul "=" 60) []].

(** What the world answers to the service listing run in state [s]. *)
Definition svc_reply (context : string) (s : state) : response :=
  world (trace s) (svc_list_cmd context).

(** The listing could not be retrieved: non-zero exit, or no JSON. *)
Definition listing_failed (context : string) (s : state) : Prop :=
  returncode (svc_reply context s) <> 0
  \/ json_loads (stdout (svc_reply context s)) = None.

Definition endpoint_line (svc : endpoint) : event :=
  Print "   - {}/{}: {}" [AJson (namespace svc); AJson (name svc); AJson (ip svc)].

(** What the loop prints for a cluster before it looks for violators. *)
Definition scan_events (cluster_name : string) (eps : list endpoint) : list event :=
  match eps with
  | [] => [Print "✓ {}: No public LoadBalancer services with external IPs"
                 [AStr cluster_name]]
  | _ :: _ =>
      Print "⚠️  {} has publicly exposed LoadBalancer services:" [AStr cluster_name]
      :: map endpoint_line eps
  end.

Definition violation_events (crit : list endpoint) : list event :=
  Print "❌ FAILED: Non-allowed services exposed publicly:" [] :: map endpoint_line crit.

(** What a listing leaves in the trace, and what it returns. *)
Definition listing_events (context : string) (s : state) : list event :=
  let r := svc_reply context s in
  Cmd (svc_list_cmd context)
  :: if negb (returncode r =? 0) then
       Print "⚠️  Could not list services for context {}" [AStr context]
       :: error_lines (stderr r)
     else
       match json_loads (stdout r) with
       | None => [Print "⚠️  Failed to parse services JSON for context {}" [AStr context]]
       | Some _ => []
       end.

Definition listing_result (context : string) (s : state) : result (list endpoint) :=
  let r := svc_reply context s in
  if negb (returncode r =? 0) then Ok []
  else match json_loads (stdout r) with
       | None => Ok []
       | Some services => collect_public_svcs services
       end.

Lemma listing_run context s :
  list_public_loadbalancers world json_loads context s
  = (listing_result context s, after s (listing_events context s)).
Proof.
  unfold list_public_loadbalancers, listing_result, listing_events.
  rewrite <- (after_nil s) at 1. step. rewrite app_nil_r.
  change (world _ _) with (svc_reply context s).
  destruct (svc_reply context s) as [out err rc]; cbn [returncode stdout stderr].
  destruct (negb (rc =? 0)); [step; reflexivity|].
  destruct (json_loads out); step; reflexivity.
Qed.

Lemma listing_commands context s :
  commands (listing_events context s) = [svc_list_cmd context].
Proof.
  unfold listing_events, error_lines. cbn [commands]. f_equal.
  destruct (negb _); [now destruct (PyStr.truthy _)|].
  now destruct (json_loads _).
Qed.

Lemma commands_endpoint_lines eps : commands (map endpoint_line eps) = [].
Proof. induction eps; simpl; auto. Qed.

Lemma commands_scan_events cluster_name eps :
  commands (scan_events cluster_name eps) = [].
Proof. destruct eps as [|ep eps]; [reflexivity|]. apply (commands_endpoint_lines (ep :: eps)). Qed.

Lemma commands_violation_events crit : commands (violation_events crit) = [].
Proof. apply commands_endpoint_lines. Qed.

Lemma listing_failed_empty context s :
  listing_failed context s -> listing_result context s = Ok [].
Proof.
  unfold listing_failed, listing_result. intros [H|H].
  - apply Z.eqb_neq in H. now rewrite H.
  - rewrite H. now destruct (negb _).
Qed.

Lemma listing_parsed context s services :
  returncode (svc_reply context s) = 0 ->
  json_loads (stdout (svc_reply context s)) = Some services ->
  list_public_loadbalancers world json_loads context s
  = (collect_public_svcs services, after s [Cmd (svc_list_cmd context)]).
Proof.
  intros Hrc Hj. rewrite listing_run. unfold listing_result, listing_events.
  now rewrite Hrc, Hj.
Qed.

(** A cluster without violators lets the loop go on to the next one. *)
Lemma exposure_loop_pass context cluster_name rest s eps s1 :
  list_public_loadbalancers world json_loads context s = (Ok eps, s1) ->
  Forall allow_listed eps ->
  exposure_loop world json_loads ((context, cluster_name) :: rest) s
  = exposure_loop world json_loads rest (after s1 (scan_events cluster_name eps)).
Proof.
  intros L A. cbn [exposure_loop]. unfold bind at 1. rewrite L.
  destruct eps as [|ep eps]; [reflexivity|].
  destruct (critical_public_named (ep :: eps)) as (crit & E & Hnil & _).
  { eapply Forall_impl; [|exact A]. apply allow_listed_named. }
  apply Hnil in A. subst crit.
  rewrite <- (after_nil s1) at 1. step.
  rewrite (for_each_print_after _ endpoint_line) by reflexivity.
  rewrite E. reflexivity.
Qed.

(** A cluster with a violator makes the loop return false on the spot. *)
Lemma exposure_loop_fail context cluster_name rest s eps s1 :
  list_public_loadbalancers world json_loads context s = (Ok eps, s1) ->
  Forall named eps ->
  Exists not_allow_listed eps ->
  exists crit,
    exposure_loop world json_loads ((context, cluster_name) :: rest) s
    = (Ok (Some false),
       after s1 (scan_events cluster_name eps ++ violation_events crit)).
Proof.
  intros L N X. cbn [exposure_loop]. unfold bind at 1. rewrite L.
  destruct (critical_public_named eps N) as (crit & E & _ & Hne).
  apply Hne in X. exists crit.
  destruct eps as [|ep eps]; [cbn in E; injection E as <-; congruence|].
  destruct crit as [|v crit]; [congruence|].
  rewrite <- (after_nil s1) at 1. step.
  rewrite (for_each_print_after _ endpoint_line) by reflexivity.
  rewrite E. step.
  rewrite (for_each_print_after _ endpoint_line) by reflexivity.
  unfold scan_events, violation_events. cbn [app]. now rewrite <- app_assoc.
Qed.

(** The state in which the first cluster is listed, and the one in which
    the second is, once the first showed the endpoints [eps1] and no
    violator. *)
Definition first_scan (s : state) : state := after s banner2.

Definition second_scan (s : state) (eps1 : list endpoint) : state :=
  after (snd (list_public_loadbalancers world json_loads
                (c1_context (self s)) (first_scan s)))
        (scan_events "C1" eps1).

Definition second_scan_unfolded (s : state) (eps1 : list endpoint) : state :=
  after (first_scan s)
        (listing_events (c1_context (self s)) (first_scan s) ++ scan_events "C1" eps1).

Lemma second_scan_eq s eps1 : second_scan s eps1 = second_scan_unfolded s eps1.
Proof.
  unfold second_scan, second_scan_unfolded. rewrite listing_run. cbn [snd].
  now rewrite after_after.
Qed.

Lemma listing_fst context s :
  fst (list_public_loadbalancers world json_loads context s)
  = listing_result context s.
Proof. now rewrite listing_run. Qed.

Definition passed2 : event := Print "✓ TEST 2 PASSED: Public exposure acceptable" [].

Lemma exposure_run s :
  test_public_exposure world json_loads s
  = match exposure_loop world json_loads
            [(c1_context (self s), "C1"); (c2_context (self s), "C2")] (first_scan s) with
    | (Ok (Some b), s') => (Ok b, s')
    | (Ok None, s') => (Ok true, emit passed2 s')
    | (Raise e, s') => (Raise e, s')
    end.
Proof.
  unfold test_public_exposure, first_scan.
  rewrite <- (after_nil s) at 1. step.
  destruct (exposure_loop _ _ _ _) as [[[b|]|e] s']; reflexivity.
Qed.

Lemma allow_listed_excludes ep : allow_listed ep -> not_allow_listed ep -> False.
Proof.
  intros A N. destruct (critical_named ep (allow_listed_named ep A)) as (b & _ & T & F).
  apply T in N. apply F in A. congruence.
Qed.

Lemma Forall_allow_listed_excludes eps :
  Forall allow_listed eps -> Exists not_allow_listed eps -> False.
Proof.
  intros A X. apply Exists_exists in X as (ep & I & N).
  rewrite Forall_forall in A. eapply allow_listed_excludes; eauto.
Qed.

(** Named endpoints are all allow-listed, or one of them is not. *)
Lemma allow_listed_or_not eps :
  Forall named eps -> Forall allow_listed eps \/ Exists not_allow_listed eps.
Proof.
  intros N. destruct (critical_public_named eps N) as (crit & _ & A & X).
  destruct crit; [left; now apply A | right; apply X; discriminate].
Qed.

(** Both clusters clean: both are scanned and the check passes. *)
Lemma exposure_passes s eps1 eps2 :
  listing_result (c1_context (self s)) (first_scan s) = Ok eps1 ->
  listing_result (c2_context (self s)) (second_scan_unfolded s eps1) = Ok eps2 ->
  Forall allow_listed eps1 -> Forall allow_listed eps2 ->
  exists evs, test_public_exposure world json_loads s = (Ok true, after s evs)
              /\ commands evs = [svc_list_cmd (c1_context (self s));
                                 svc_list_cmd (c2_context (self s))].
Proof.
  intros L1 L2 A1 A2. rewrite exposure_run.
  rewrite (exposure_loop_pass _ _ _ _ eps1 (after (first_scan s)
             (listing_events (c1_context (self s)) (first_scan s))));
    [|now rewrite listing_run, L1|assumption].
  rewrite after_after. fold (second_scan_unfolded s eps1).
  rewrite (exposure_loop_pass _ _ _ _ eps2 (after (second_scan_unfolded s eps1)
             (listing_events (c2_context (self s)) (second_scan_unfolded s eps1))));
    [|now rewrite listing_run, L2|assumption].
  cbn [exposure_loop]. unfold ret, second_scan_unfolded, first_scan.
  rewrite !after_after, emit_after. eexists. split; [reflexivity|].
  now rewrite !commands_app, !listing_commands, !commands_scan_events.
Qed.

(** A violator in the first cluster: the check fails after one listing. *)
Lemma exposure_fails_first s eps1 :
  listing_result (c1_context (self s)) (first_scan s) = Ok eps1 ->
  Forall named eps1 -> Exists not_allow_listed eps1 ->
  exists evs, test_public_exposure world json_loads s = (Ok false, after s evs)
              /\ commands evs = [svc_list_cmd (c1_context (self s))].
Proof.
  intros L1 N1 X1. rewrite exposure_run.
  destruct (exposure_loop_fail (c1_context (self s)) "C1" [(c2_context (self s), "C2")]
              (first_scan s) eps1 (after (first_scan s)
                 (listing_events (c1_context (self s)) (first_scan s))))
    as (crit & E); [now rewrite listing_run, L1|assumption|assumption|].
  rewrite E. unfold first_scan. rewrite !after_after.
  eexists. split; [reflexivity|].
  now rewrite !commands_app, listing_commands, commands_scan_events,
    commands_violation_events.
Qed.

(** A violator in the second cluster only: the check fails after both
    listings. *)
Lemma exposure_fails_second s eps1 eps2 :
  listing_result (c1_context (self s)) (first_scan s) = Ok eps1 ->
  listing_result (c2_context (self s)) (second_scan_unfolded s eps1) = Ok eps2 ->
  Forall allow_listed eps1 -> Forall named eps2 -> Exists not_allow_listed eps2 ->
  exists evs, test_public_exposure world json_loads s = (Ok false, after s evs)
              /\ commands evs = [svc_list_cmd (c1_context (self s));
                                 svc_list_cmd (c2_context (self s))].
Proof.
  intros L1 L2 A1 N2 X2. rewrite exposure_run.
  rewrite (exposure_loop_pass _ _ _ _ eps1 (after (first_scan s)
             (listing_events (c1_context (self s)) (first_scan s))));
    [|now rewrite listing_run, L1|assumption].
  rewrite after_after. fold (second_scan_unfolded s eps1).
  destruct (exposure_loop_fail (c2_context (self s)) "C2" []
              (second_scan_unfolded s eps1) eps2 (after (second_scan_unfolded s eps1)
                 (listing_events (c2_context (self s)) (second_scan_unfolded s eps1))))
    as (crit & E); [now rewrite listing_run, L2|assumption|assumption|].
  rewrite E. unfold second_scan_unfolded, first_scan. rewrite !after_after.
  eexists. split; [reflexivity|].
  now rewrite !commands_app, !listing_commands, !commands_scan_events,
    commands_violation_events.
Qed.

(** C5. With the public endpoints the two listings discover (their names
    being strings), the exposure check returns a boolean, and it is false
    exactly when some endpoint's name contains, letter case ignored, neither
    frontend nor c2-validation; with no public endpoint in either cluster
    it is true. *)
Theorem exposure_false_iff_not_allow_listed (s : state) (eps1 eps2 : list endpoint) :
  fst (list_public_loadbalancers world json_loads (c1_context (self s)) (first_scan s))
  = Ok eps1 ->
  fst (list_public_loadbalancers world json_loads (c2_context (self s))
         (second_scan s eps1))
  = Ok eps2 ->
  Forall named (eps1 ++ eps2) ->
  exists b s',
    test_public_exposure world json_loads s = (Ok b, s')
    /\ (b = false <-> Exists not_allow_listed (eps1 ++ eps2))
    /\ (eps1 = [] -> eps2 = [] -> b = true).
Proof.
  rewrite second_scan_eq, !listing_fst.
  intros L1 L2 N. apply Forall_app in N as [N1 N2].
  destruct (allow_listed_or_not eps1 N1) as [A1|X1].
  - destruct (allow_listed_or_not eps2 N2) as [A2|X2].
    + destruct (exposure_passes s eps1 eps2 L1 L2 A1 A2) as (evs & E & _).
      exists true, (after s evs). split; [exact E|]. split; [|reflexivity].
      split; [discriminate|]. intros X. exfalso.
      apply (Forall_allow_listed_excludes (eps1 ++ eps2)); [|assumption].
      apply Forall_app; now split.
    + destruct (exposure_fails_second s eps1 eps2 L1 L2 A1 N2 X2) as (evs & E & _).
      exists false, (after s evs). split; [exact E|]. split.
      * split; [|reflexivity]. intros _. apply Exists_app. now right.
      * intros _ ->. inversion X2.
  - destruct (exposure_fails_first s eps1 L1 N1 X1) as (evs & E & _).
    exists false, (after s evs). split; [exact E|]. split.
    + split; [|reflexivity]. intros _. apply Exists_app. now left.
    + intros ->. inversion X1.
Qed.

(** A cluster whose listing comes back with allow-listed endpoints only. *)
Definition clean_cluster (context : string) (s : state) : Prop :=
  exists eps,
    fst (list_public_loadbalancers world json_loads context s) = Ok eps
    /\ Forall allow_listed eps.

(** C6. A listing that fails (non-zero exit, or output that does not parse)
    returns the empty list of endpoints, and when the other cluster shows no
    endpoint outside the allow-list the exposure check returns true. *)
Theorem listing_failure_is_not_fatal (s : state) :
  (listing_failed (c1_context (self s)) (first_scan s)
   /\ clean_cluster (c2_context (self s)) (second_scan s []))
  \/ (exists eps1,
        fst (list_public_loadbalancers world json_loads
               (c1_context (self s)) (first_scan s)) = Ok eps1
        /\ Forall allow_listed eps1
        /\ listing_failed (c2_context (self s)) (second_scan s eps1)) ->
  (exists s', test_public_exposure world json_loads s = (Ok true, s'))
  /\ (forall context t,
        listing_failed context t ->
        fst (list_public_loadbalancers world json_loads context t) = Ok []).
Proof.
  intros H. split.
  - destruct H as [[F1 (eps2 & L2 & A2)] | (eps1 & L1 & A1 & F2)];
      rewrite second_scan_eq, ?listing_fst in *.
    + apply listing_failed_empty in F1.
      destruct (exposure_passes s [] eps2 F1 L2 (Forall_nil _) A2) as (evs & E & _).
      now exists (after s evs).
    + apply listing_failed_empty in F2.
      destruct (exposure_passes s eps1 [] L1 F2 A1 (Forall_nil _)) as (evs & E & _).
      now exists (after s evs).
  - intros context t F. rewrite listing_run. now apply listing_failed_empty.
Qed.

Lemma listing_events_of_endpoints context s eps :
  listing_result context s = Ok eps -> eps <> [] ->
  listing_events context s = [Cmd (svc_list_cmd context)].
Proof.
  unfold listing_result, listing_events. intros R NE.
  destruct (negb _); [injection R as <-; congruence|].
  destruct (json_loads _); [reflexivity | injection R as <-; congruence].
Qed.

(** A cluster with a violator: what is printed before the loop returns. *)
Lemma exposure_loop_violators context cluster_name rest s eps s1 :
  list_public_loadbalancers world json_loads context s = (Ok eps, s1) ->
  Forall named eps ->
  Exists not_allow_listed eps ->
  exists crit,
    violators eps crit
    /\ crit <> []
    /\ exposure_loop world json_loads ((context, cluster_name) :: rest) s
       = (Ok (Some false),
          after s1 (scan_events cluster_name eps ++ violation_events crit)).
Proof.
  intros L N X. cbn [exposure_loop]. unfold bind at 1. rewrite L.
  destruct (critical_public_violators eps N) as (crit & E & V).
  pose proof (violators_exist eps crit V X) as NE.
  exists crit. split; [exact V|]. split; [exact NE|].
  destruct eps as [|ep eps]; [inversion X|].
  destruct crit as [|v crit]; [congruence|].
  rewrite <- (after_nil s1) at 1. step.
  rewrite (for_each_print_after _ endpoint_line) by reflexivity.
  rewrite E. step.
  rewrite (for_each_print_after _ endpoint_line) by reflexivity.
  unfold scan_events, violation_events. cbn [app]. now rewrite <- app_assoc.
Qed.

(** C7, as the code has it. When the first cluster yields a public endpoint
    whose name contains none of the allow-list keywords, the exposure check
    prints the endpoints of the first cluster, then the failure line and the
    violators (the endpoints of the first cluster outside the allow-list, in
    the order of the listing), and returns false at once: the first
    cluster's listing is the only command it has run, no second listing. *)
Theorem exposure_stops_at_first_violation (s : state) (eps1 : list endpoint) :
  fst (list_public_loadbalancers world json_loads (c1_context (self s)) (first_scan s))
  = Ok eps1 ->
  Forall named eps1 ->
  Exists not_allow_listed eps1 ->
  exists crit evs,
    violators eps1 crit
    /\ crit <> []
    /\ evs = ([Print (nl ++ "[TEST 2] Public Exposure Check") [];
               Print (PyStr.mul "=" 60) [];
               Cmd (svc_list_cmd (c1_context (self s)));
               Print "⚠️  {} has publicly exposed LoadBalancer services:" [AStr "C1"]]
              ++ map (fun svc => Print "   - {}/{}: {}"
                                   [AJson (namespace svc); AJson (name svc);
                                    AJson (ip svc)]) eps1
              ++ Print "❌ FAILED: Non-allowed services exposed publicly:" []
              :: map (fun svc => Print "   - {}/{}: {}"
                                   [AJson (namespace svc); AJson (name svc);
                                    AJson (ip svc)]) crit)%list
    /\ test_public_exposure world json_loads s = (Ok false, after s evs)
    /\ commands evs = [svc_list_cmd (c1_context (self s))].
Proof.
  rewrite listing_fst. intros L N X.
  destruct (exposure_loop_violators (c1_context (self s)) "C1"
              [(c2_context (self s), "C2")] (first_scan s) eps1
              (after (first_scan s)
                 (listing_events (c1_context (self s)) (first_scan s))))
    as (crit & V & NE & E); [now rewrite listing_run, L|assumption|assumption|].
  assert (NE1 : eps1 <> []) by (intros ->; inversion X).
  rewrite (listing_events_of_endpoints _ _ _ L NE1) in E.
  exists crit. eexists. split; [exact V|]. split; [exact NE|].
  split; [reflexivity|]. split.
  - rewrite exposure_run, E. unfold first_scan. rewrite !after_after.
    destruct eps1 as [|ep eps1]; [congruence|].
    unfold scan_events, violation_events, banner2. cbn [app map].
    fold (endpoint_line ep). change (fun svc => Print "   - {}/{}: {}"
                                       [AJson (namespace svc); AJson (name svc);
                                        AJson (ip svc)]) with endpoint_line.
    reflexivity.
  - cbn [app commands]. change (fun svc => Print "   - {}/{}: {}"
                                  [AJson (namespace svc); AJson (name svc);
                                   AJson (ip svc)]) with endpoint_line.
    rewrite commands_app, commands_endpoint_lines. cbn [app commands].
    now rewrite commands_endpoint_lines.
Qed.

End Exposure.

(** ** Test 3 *)

(** *** Rule groups as the cloud lists them *)

Definition field (k : string) (v : json) : option json :=
  match v with
  | JObj kvs => Py.lookup k kvs
  | _ => None
  end.

Definition is_object (v : json) : bool :=
  match v with
  | JObj _ => true
  | _ => false
  end.

(** The access field of the rule is present and equals [v] exactly. *)
Definition has_access (v : string) (r : json) : bool :=
  match field "access" r with
  | Some (JStr a) => String.eqb a v
  | _ => false
  end.

(** The number of rules whose access field equals [v]. *)
Fixpoint count_access (v : string) (rules : list json) : nat :=
  match rules with
  | [] => 0
  | r :: rest => (if has_access v r then 1 else 0) + count_access v rest
  end.

(** A rule group: an object whose securityRules, when present, is a list
    of rule objects. *)
Definition rule_group (nsg : json) : bool :=
  match nsg with
  | JObj kvs =>
      match Py.lookup "securityRules" kvs with
      | None => true
      | Some (JArr rs) => forallb is_object rs
      | Some _ => false
      end
  | _ => false
  end.

Definition rules_of (nsg : json) : list json :=
  match field "securityRules" nsg with
  | Some (JArr rs) => rs
  | _ => []
  end.

Definition group_name (nsg : json) : json :=
  match field "name" nsg with
  | Some n => n
  | None => JStr "<unknown>"
  end.

(** The line the check reports for a rule group. *)
Definition summary_line (cluster_name : string) (nsg : json) : event :=
  Print "✓ {} NSG '{}': {} allow rules, {} deny rules"
        [AStr cluster_name; AJson (group_name nsg);
         AInt (Z.of_nat (count_access "Allow" (rules_of nsg)));
         AInt (Z.of_nat (count_access "Deny" (rules_of nsg)))].

Lemma rules_with_access_counts v rs :
  forallb is_object rs = true ->
  exists picked, rules_with_access (JArr rs) v = Ok picked
                 /\ List.length picked = count_access v rs.
Proof.
  unfold rules_with_access. cbn [Py.iter rbind].
  induction rs as [|r rs IH]; cbn [forallb filter_r count_access]; intros H.
  - now exists [].
  - apply andb_true_iff in H as [Hr Hrs]. destruct (IH Hrs) as (picked & E & L).
    destruct r as [| | | | | |kvs]; try discriminate Hr.
    rewrite E. unfold has_access, field. cbn [Py.get rbind].
    destruct (Py.lookup "access" kvs) as [[| | | |a| |]|]; cbn [Py.eq_str];
      try (exists picked; split; [reflexivity | exact L]).
    destruct (String.eqb a v).
    + exists (JObj kvs :: picked). split; [reflexivity|]. simpl. now rewrite L.
    + exists picked. split; [reflexivity | exact L].
Qed.

Lemma access_exclusive r : has_access "Allow" r && has_access "Deny" r = false.
Proof.
  unfold has_access. destruct (field "access" r) as [[| | | |a| |]|]; try reflexivity.
  destruct (String.eqb_spec a "Allow") as [->|]; reflexivity.
Qed.

Lemma counts_bounded rs :
  (count_access "Allow" rs + count_access "Deny" rs <= List.length rs)%nat.
Proof.
  induction rs as [|r rs IH]; cbn [count_access List.length]; [lia|].
  pose proof (access_exclusive r).
  destruct (has_access "Allow" r), (has_access "Deny" r); try discriminate; lia.
Qed.

Lemma summarize_rule_group cluster_name nsg s :
  rule_group nsg = true ->
  summarize_nsg cluster_name nsg s = (Ok tt, emit (summary_line cluster_name nsg) s).
Proof.
  intros G. destruct nsg as [| | | | | |kvs]; try discriminate G.
  unfold summarize_nsg, summary_line, group_name, rules_of, field. cbn [rule_group] in G.
  unfold bind at 1, lift at 1. cbn [Py.get].
  unfold bind at 1, lift at 1.
  assert (R : exists rs, match Py.lookup "securityRules" kvs with
                         | Some x => x | None => JArr [] end = JArr rs
                         /\ forallb is_object rs = true
                         /\ match Py.lookup "securityRules" kvs with
                            | Some (JArr rs') => rs' | _ => [] end = rs).
  { destruct (Py.lookup "securityRules" kvs) as [[| | | | |rs|]|]; try discriminate G;
      eexists; repeat split; auto. }
  destruct R as (rs & -> & O & ->).
  destruct (rules_with_access_counts "Allow" rs O) as (al & Ea & La).
  destruct (rules_with_access_counts "Deny" rs O) as (de & Ed & Ld).
  unfold bind, lift. rewrite Ea, Ed. unfold print, len. now rewrite La, Ld.
Qed.

Section Isolation.

Variable world : oracle.
Variable json_loads : string -> option json.

Definition banner3 : list event :=
  [Print (nl ++ "[TEST 3] Network Isolation (NSG Summary)") [];
   Print (PyStr.mul "=" 60) []].

(** What the world answers to the rule-group listing run in state [s]. *)
Definition nsg_reply (rg : string) (s : state) : response :=
  world (trace s) (nsg_list_cmd rg).

(** The listing could not be observed: non-zero exit, or no JSON. *)
Definition retrieval_failed (rg : string) (s : state) : Prop :=
  returncode (nsg_reply rg s) <> 0
  \/ json_loads (stdout (nsg_reply rg s)) = None.

Definition retrieved (rg : string) (s : state) : bool :=
  (returncode (nsg_reply rg s) =? 0)
  && match json_loads (stdout (nsg_reply rg s)) with
     | Some _ => true
     | None => false
     end.

(** A parsed listing: nothing (a falsy value), or a list of rule groups. *)
Definition listing_shape (v : json) : bool :=
  negb (Py.truthy v)
  || match v with
     | JArr nsgs => forallb rule_group nsgs
     | _ => false
     end.

(** Whenever the listing is retrieved and parsed, it has that shape. *)
Definition well_formed_listing (rg : string) (s : state) : Prop :=
  forall v, returncode (nsg_reply rg s) = 0 ->
            json_loads (stdout (nsg_reply rg s)) = Some v ->
            listing_shape v = true.

Definition groups_of (v : json) : list json :=
  match v with
  | JArr nsgs => nsgs
  | _ => []
  end.

(** What one round of the loop leaves in the trace. *)
Definition cluster_events (cluster_name rg : string) (s : state) : list event :=
  let r := nsg_reply rg s in
  Cmd (nsg_list_cmd rg)
  :: if negb (returncode r =? 0) then
       Print "⚠️  Could not list NSGs for {} (rg={})" [AStr cluster_name; AStr rg]
       :: error_lines (stderr r)
     else
       match json_loads (stdout r) with
       | None =>
           [Print "⚠️  Failed to parse NSG JSON for {} (rg={})" [AStr cluster_name; AStr rg]]
       | Some v =>
           if negb (Py.truthy v) then
             [Print "⚠️  No NSGs found in {} (rg={})" [AStr cluster_name; AStr rg]]
           else map (summary_line cluster_name) (groups_of v)
       end.

Lemma retrieved_false rg s : retrieved rg s = false <-> retrieval_failed rg s.
Proof.
  unfold retrieved, retrieval_failed. rewrite andb_false_iff, Z.eqb_neq.
  destruct (json_loads _); intuition congruence.
Qed.

Lemma summarize_groups cluster_name nsgs s evs :
  forallb rule_group nsgs = true ->
  for_each nsgs (summarize_nsg cluster_name) (after s evs)
  = (Ok tt, after s (evs ++ map (summary_line cluster_name) nsgs)).
Proof.
  revert evs; induction nsgs as [|nsg nsgs IH]; intros evs H; cbn [for_each map].
  - unfold ret. now rewrite app_nil_r.
  - apply andb_true_iff in H as [G H]. unfold bind.
    rewrite (summarize_rule_group _ _ _ G), emit_after, (IH _ H).
    now rewrite <- app_assoc.
Qed.

(** One round of the loop: the flag survives exactly when the listing was
    retrieved and parsed. *)
Lemma isolation_round context cluster_name rg rest ok s :
  well_formed_listing rg s ->
  isolation_loop world json_loads ((context, cluster_name, rg) :: rest) ok s
  = isolation_loop world json_loads rest (ok && retrieved rg s)
      (after s (cluster_events cluster_name rg s)).
Proof.
  intros W. cbn [isolation_loop]. unfold cluster_events, retrieved, well_formed_listing in *.
  match goal with |- _ = ?r => set (rhs := r) end.
  rewrite <- (after_nil s). subst rhs. step. rewrite app_nil_r.
  change (world _ _) with (nsg_reply rg s).
  destruct (nsg_reply rg s) as [out err rc]; cbn [returncode stdout stderr] in *.
  destruct (rc =? 0) eqn:Z; cbn [negb andb].
  - apply Z.eqb_eq in Z. specialize (fun v => W v Z).
    destruct (json_loads out) as [v|].
    + specialize (W v eq_refl). rewrite andb_true_r.
      unfold listing_shape in W. destruct (Py.truthy v) eqn:T; cbn [negb orb] in *.
      * destruct v as [| | | | |nsgs|]; try discriminate W.
        cbn [Py.iter groups_of]. step.
        now rewrite (summarize_groups _ _ _ _ W).
      * now step.
    + step. now rewrite andb_false_r.
  - step. now rewrite andb_false_r.
Qed.

Definition verdict3 (ok : bool) : event :=
  if ok then
    Print "✓ TEST 3 PASSED: Network isolation configured (NSGs present and summarized)" []
  else
    Print "⚠️ TEST 3 COMPLETED WITH WARNINGS: Some NSG data could not be retrieved" [].

(** The states in which the two resource groups are listed. *)
Definition first_listing (s : state) : state := after s banner3.

Definition second_listing (s : state) : state :=
  snd (isolation_loop world json_loads
         [(c1_context (self s), "C1", "rg-c1-eastus")] true (first_listing s)).

Definition second_listing_unfolded (s : state) : state :=
  after (first_listing s) (cluster_events "C1" "rg-c1-eastus" (first_listing s)).

Lemma second_listing_eq s :
  well_formed_listing "rg-c1-eastus" (first_listing s) ->
  second_listing s = second_listing_unfolded s.
Proof.
  intros W. unfold second_listing. now rewrite (isolation_round _ _ _ _ _ _ W).
Qed.

Lemma isolation_run s :
  well_formed_listing "rg-c1-eastus" (first_listing s) ->
  well_formed_listing "rg-c2-westus" (second_listing_unfolded s) ->
  let ok := retrieved "rg-c1-eastus" (first_listing s)
            && retrieved "rg-c2-westus" (second_listing_unfolded s) in
  test_network_isolation world json_loads s
  = (Ok ok,
     after (second_listing_unfolded s)
           (cluster_events "C2" "rg-c2-westus" (second_listing_unfolded s) ++ [verdict3 ok])).
Proof.
  intros W1 W2 ok. unfold test_network_isolation.
  rewrite <- (after_nil s) at 1. step.
  change (after s _) with (first_listing s).
  rewrite (isolation_round _ _ _ _ _ _ W1).
  change (after (first_listing s) _) with (second_listing_unfolded s).
  rewrite (isolation_round _ _ _ _ _ _ W2). cbn [isolation_loop andb]. fold ok.
  unfold ret, verdict3. destruct ok; step; reflexivity.
Qed.

(** The trace of a run, cut at the two listings. *)
Lemma isolation_trace s :
  trace (after (second_listing_unfolded s)
           (cluster_events "C2" "rg-c2-westus" (second_listing_unfolded s)
            ++ [verdict3 (retrieved "rg-c1-eastus" (first_listing s)
                          && retrieved "rg-c2-westus" (second_listing_unfolded s))]))
  = (trace s ++ banner3
     ++ cluster_events "C1" "rg-c1-eastus" (first_listing s)
     ++ cluster_events "C2" "rg-c2-westus" (second_listing_unfolded s)
     ++ [verdict3 (retrieved "rg-c1-eastus" (first_listing s)
                   && retrieved "rg-c2-westus" (second_listing_unfolded s))])%list.
Proof.
  unfold second_listing_unfolded, first_listing. rewrite !trace_after.
  now rewrite <- !app_assoc.
Qed.

Lemma summary_in_cluster_events cluster_name rg s nsgs nsg :
  returncode (nsg_reply rg s) = 0 ->
  json_loads (stdout (nsg_reply rg s)) = Some (JArr nsgs) ->
  In nsg nsgs ->
  In (summary_line cluster_name nsg) (cluster_events cluster_name rg s).
Proof.
  intros Hrc Hj I. unfold cluster_events. rewrite Hrc, Hj. cbn [Z.eqb negb].
  right. destruct nsgs as [|n nsgs]; [destruct I|].
  cbn [Py.truthy negb groups_of]. now apply in_map.
Qed.

Lemma warning_in_cluster_events cluster_name rg s :
  returncode (nsg_reply rg s) = 0 ->
  json_loads (stdout (nsg_reply rg s)) = Some (JArr []) ->
  cluster_events cluster_name rg s
  = [Cmd (nsg_list_cmd rg);
     Print "⚠️  No NSGs found in {} (rg={})" [AStr cluster_name; AStr rg]].
Proof. intros Hrc Hj. unfold cluster_events. now rewrite Hrc, Hj. Qed.

(** C8. For listings that are lists of rule groups, the isolation check
    completes, and for every rule group of either cluster the line it
    reports carries as allow count the number of rules whose access field is
    exactly Allow and as deny count the number whose access field is exactly
    Deny; no rule is counted in both, and the two counts together do not
    exceed the number of rules of the group. *)
Theorem isolation_reports_access_counts (s : state) :
  well_formed_listing "rg-c1-eastus" (first_listing s) ->
  well_formed_listing "rg-c2-westus" (second_listing s) ->
  exists b s',
    test_network_isolation world json_loads s = (Ok b, s')
    /\ (forall nsgs nsg,
          returncode (nsg_reply "rg-c1-eastus" (first_listing s)) = 0 ->
          json_loads (stdout (nsg_reply "rg-c1-eastus" (first_listing s)))
          = Some (JArr nsgs) ->
          In nsg nsgs ->
          In (Print "✓ {} NSG '{}': {} allow rules, {} deny rules"
                [AStr "C1"; AJson (group_name nsg);
                 AInt (Z.of_nat (count_access "Allow" (rules_of nsg)));
                 AInt (Z.of_nat (count_access "Deny" (rules_of nsg)))])
             (trace s'))
    /\ (forall nsgs nsg,
          returncode (nsg_reply "rg-c2-westus" (second_listing s)) = 0 ->
          json_loads (stdout (nsg_reply "rg-c2-westus" (second_listing s)))
          = Some (JArr nsgs) ->
          In nsg nsgs ->
          In (Print "✓ {} NSG '{}': {} allow rules, {} deny rules"
                [AStr "C2"; AJson (group_name nsg);
                 AInt (Z.of_nat (count_access "Allow" (rules_of nsg)));
                 AInt (Z.of_nat (count_access "Deny" (rules_of nsg)))])
             (trace s'))
    /\ (forall nsg,
          (count_access "Allow" (rules_of nsg) + count_access "Deny" (rules_of nsg)
           <= List.length (rules_of nsg))%nat
          /\ forall r, In r (rules_of nsg) ->
                       has_access "Allow" r && has_access "Deny" r = false).
Proof.
  intros W1. rewrite (second_listing_eq s W1). intros W2. eexists _, _. split; [exact (isolation_run s W1 W2)|].
  rewrite isolation_trace. repeat split.
  - intros nsgs nsg Hrc Hj I. apply in_or_app; right. apply in_or_app; right.
    apply in_or_app; left. now apply (summary_in_cluster_events "C1" _ _ nsgs).
  - intros nsgs nsg Hrc Hj I. apply in_or_app; right. apply in_or_app; right.
    apply in_or_app; right. apply in_or_app; left.
    now apply (summary_in_cluster_events "C2" _ _ nsgs).
  - apply counts_bounded.
  - intros r _. apply access_exclusive.
Qed.

(** C9. For listings that are lists of rule groups, the isolation check
    returns a boolean that is false exactly when the listing of at least one
    cluster exited non-zero or did not parse. A listing that parses to the
    empty list is reported as a warning and does not count as a failure. The
    rules themselves play no part: the result is decided by the two
    retrievals alone. *)
Theorem isolation_false_iff_retrieval_failed (s : state) :
  well_formed_listing "rg-c1-eastus" (first_listing s) ->
  well_formed_listing "rg-c2-westus" (second_listing s) ->
  exists b s',
    test_network_isolation world json_loads s = (Ok b, s')
    /\ (b = false <->
        retrieval_failed "rg-c1-eastus" (first_listing s)
        \/ retrieval_failed "rg-c2-westus" (second_listing s))
    /\ b = retrieved "rg-c1-eastus" (first_listing s)
           && retrieved "rg-c2-westus" (second_listing s)
    /\ (returncode (nsg_reply "rg-c1-eastus" (first_listing s)) = 0 ->
        json_loads (stdout (nsg_reply "rg-c1-eastus" (first_listing s))) = Some (JArr []) ->
        retrieved "rg-c1-eastus" (first_listing s) = true
        /\ In (Print "⚠️  No NSGs found in {} (rg={})" [AStr "C1"; AStr "rg-c1-eastus"])
              (trace s'))
    /\ (returncode (nsg_reply "rg-c2-westus" (second_listing s)) = 0 ->
        json_loads (stdout (nsg_reply "rg-c2-westus" (second_listing s))) = Some (JArr []) ->
        retrieved "rg-c2-westus" (second_listing s) = true
        /\ In (Print "⚠️  No NSGs found in {} (rg={})" [AStr "C2"; AStr "rg-c2-westus"])
              (trace s')).
Proof.
  intros W1. rewrite (second_listing_eq s W1). intros W2. eexists _, _. split; [exact (isolation_run s W1 W2)|].
  rewrite isolation_trace. split; [|split; [reflexivity|split]].
  - rewrite andb_false_iff, !retrieved_false. reflexivity.
  - intros Hrc Hj. split; [unfold retrieved; now rewrite Hrc, Hj|].
    rewrite (warning_in_cluster_events "C1" _ _ Hrc Hj).
    apply in_or_app; right. apply in_or_app; right. cbn; auto.
  - intros Hrc Hj. split; [unfold retrieved; now rewrite Hrc, Hj|].
    rewrite (warning_in_cluster_events "C2" _ _ Hrc Hj).
    apply in_or_app; right. apply in_or_app; right. apply in_or_app; right.
    cbn; auto.
Qed.

End Isolation.

(** ** Services as the cluster lists them *)

(** The service is of type LoadBalancer. *)
Definition is_load_balancer (svc : json) : bool :=
  match field "spec" svc with
  | Some spec =>
      match field "type" spec with
      | Some (JStr t) => String.eqb t "LoadBalancer"
      | _ => false
      end
  | None => false
  end.

(** The entries of status.loadBalancer.ingress; none when a level is missing. *)
Definition ingress_entries (svc : json) : list json :=
  match field "status" svc with
  | Some status =>
      match field "loadBalancer" status with
      | Some lb =>
          match field "ingress" lb with
          | Some (JArr ings) => ings
          | _ => []
          end
      | None => []
      end
  | None => []
  end.

(** The entry carries an external IP: an ip field that is truthy. *)
Definition has_external_ip (ing : json) : bool :=
  match field "ip" ing with
  | Some addr => Py.truthy addr
  | None => false
  end.

Definition metadata_complete (svc : json) : bool :=
  match field "metadata" svc with
  | Some md =>
      match field "name" md, field "namespace" md with
      | Some _, Some _ => true
      | _, _ => false
      end
  | None => false
  end.

(** The record of one ingress entry of a service. *)
Definition record_of (svc ing : json) : list endpoint :=
  match field "ip" ing, field "metadata" svc with
  | Some addr, Some md =>
      match field "name" md, field "namespace" md with
      | Some n, Some ns => [{| name := n; namespace := ns; ip := addr |}]
      | _, _ => []
      end
  | _, _ => []
  end.

(** One record per ingress entry that carries an external IP, on services
    of type LoadBalancer only. *)
Definition expected_records (svc : json) : list endpoint :=
  if is_load_balancer svc then
    flat_map (record_of svc) (filter has_external_ip (ingress_entries svc))
  else [].

(** The number of ingress entries with an external IP on a LoadBalancer. *)
Definition external_ip_count (svc : json) : nat :=
  if is_load_balancer svc then
    List.length (filter has_external_ip (ingress_entries svc))
  else 0%nat.

(** The structure the listing may have: an object; a spec, when present,
    that is an object; and on a LoadBalancer a status, a loadBalancer and
    an ingress that are each absent or of their kind (the ingress may also
    be null), with object entries, and a name and a namespace to report
    once an entry carries an external IP. *)
Definition service_shape (svc : json) : bool :=
  match svc with
  | JObj kvs =>
      match Py.lookup "spec" kvs with
      | None => true
      | Some (JObj _) =>
          negb (is_load_balancer svc)
          || match Py.lookup "status" kvs with
             | None => true
             | Some (JObj st) =>
                 match Py.lookup "loadBalancer" st with
                 | None => true
                 | Some (JObj lb) =>
                     match Py.lookup "ingress" lb with
                     | None | Some JNull => true
                     | Some (JArr ings) =>
                         forallb is_object ings
                         && (negb (existsb has_external_ip ings) || metadata_complete svc)
                     | Some _ => false
                     end
                 | Some _ => false
                 end
             | Some _ => false
             end
      | Some _ => false
      end
  | _ => false
  end.

(** The items of a parsed listing: an object whose items, when present,
    is a list. *)
Definition items_of (services : json) : option (list json) :=
  match services with
  | JObj kvs =>
      match Py.lookup "items" kvs with
      | None => Some []
      | Some (JArr svcs) => Some svcs
      | Some _ => None
      end
  | _ => None
  end.

(** The kinds of missing structure: each item below lacks something on the
    way to an external IP. *)
Inductive missing_structure : json -> Prop :=
| no_spec kvs :
    Py.lookup "spec" kvs = None ->
    missing_structure (JObj kvs)
| other_type kvs sp :
    Py.lookup "spec" kvs = Some (JObj sp) ->
    is_load_balancer (JObj kvs) = false ->
    missing_structure (JObj kvs)
| no_status kvs sp :
    Py.lookup "spec" kvs = Some (JObj sp) ->
    Py.lookup "status" kvs = None ->
    missing_structure (JObj kvs)
| no_load_balancer kvs sp st :
    Py.lookup "spec" kvs = Some (JObj sp) ->
    Py.lookup "status" kvs = Some (JObj st) ->
    Py.lookup "loadBalancer" st = None ->
    missing_structure (JObj kvs)
| no_ingress kvs sp st lb :
    Py.lookup "spec" kvs = Some (JObj sp) ->
    Py.lookup "status" kvs = Some (JObj st) ->
    Py.lookup "loadBalancer" st = Some (JObj lb) ->
    Py.lookup "ingress" lb = None \/ Py.lookup "ingress" lb = Some JNull ->
    missing_structure (JObj kvs)
| no_address kvs sp st lb ings :
    Py.lookup "spec" kvs = Some (JObj sp) ->
    Py.lookup "status" kvs = Some (JObj st) ->
    Py.lookup "loadBalancer" st = Some (JObj lb) ->
    Py.lookup "ingress" lb = Some (JArr ings) ->
    forallb is_object ings = true ->
    existsb has_external_ip ings = false ->
    missing_structure (JObj kvs).

(** *** The inner loop *)

Lemma ingress_step_skip svc ing acc :
  is_object ing = true -> has_external_ip ing = false ->
  ingress_step svc ing acc = Ok acc.
Proof.
  destruct ing as [| | | | | |ikvs]; try discriminate. intros _.
  unfold has_external_ip, ingress_step. cbn [field Py.get rbind].
  destruct (Py.lookup "ip" ikvs) as [addr|]; cbn [Py.truthy]; [|reflexivity].
  now intros ->.
Qed.

Lemma ingress_step_record svc md n ns ing acc :
  is_object ing = true -> has_external_ip ing = true ->
  field "metadata" svc = Some md -> field "name" md = Some n ->
  field "namespace" md = Some ns ->
  ingress_step svc ing acc = Ok (acc ++ record_of svc ing)%list
  /\ List.length (record_of svc ing) = 1%nat.
Proof.
  destruct ing as [| | | | | |ikvs]; try discriminate. intros _.
  unfold has_external_ip, ingress_step, record_of. cbn [field Py.get rbind].
  destruct (Py.lookup "ip" ikvs) as [addr|]; [|discriminate].
  intros -> Hmd Hn Hns. rewrite Hmd, Hn, Hns.
  destruct svc as [| | | | | |kvs]; try discriminate Hmd.
  destruct md as [| | | | | |mkvs]; try discriminate Hn.
  cbn [field] in *. unfold Py.getitem. rewrite Hmd. cbn [rbind].
  rewrite Hn, Hns. now cbn [rbind].
Qed.

Lemma ingress_loop svc md n ns ings acc :
  forallb is_object ings = true ->
  (existsb has_external_ip ings = true ->
   field "metadata" svc = Some md /\ field "name" md = Some n
   /\ field "namespace" md = Some ns) ->
  fold_r (ingress_step svc) ings acc
  = Ok (acc ++ flat_map (record_of svc) (filter has_external_ip ings))%list
  /\ List.length (flat_map (record_of svc) (filter has_external_ip ings))
     = List.length (filter has_external_ip ings).
Proof.
  revert acc; induction ings as [|ing ings IH]; intros acc O M;
    cbn [fold_r filter forallb existsb] in *.
  - cbn [flat_map]. now rewrite app_nil_r.
  - apply andb_true_iff in O as [Oi O].
    destruct (has_external_ip ing) eqn:E; cbn [orb] in M.
    + destruct M as (Hmd & Hn & Hns); [reflexivity|].
      destruct (ingress_step_record svc md n ns ing acc Oi E Hmd Hn Hns) as [S L].
      rewrite S. cbn [rbind flat_map].
      destruct (IH (acc ++ record_of svc ing)%list O) as [F Ln]; [auto|].
      rewrite F, <- app_assoc. split; [reflexivity|].
      rewrite length_app, L, Ln. reflexivity.
    + rewrite (ingress_step_skip svc ing acc Oi E). cbn [rbind]. now apply IH.
Qed.

(** *** The outer loop *)

Lemma type_test sp :
  Py.eq_str (match Py.lookup "type" sp with Some x => x | None => JNull end) "LoadBalancer"
  = match Py.lookup "type" sp with
    | Some (JStr t) => String.eqb t "LoadBalancer"
    | _ => false
    end.
Proof. now destruct (Py.lookup "type" sp) as [[| | | | | |]|]. Qed.

Lemma svc_step_shape svc acc :
  service_shape svc = true ->
  svc_step svc acc = Ok (acc ++ expected_records svc)%list
  /\ List.length (expected_records svc) = external_ip_count svc.
Proof.
  destruct svc as [| | | | | |kvs]; try discriminate.
  unfold service_shape, svc_step, expected_records, external_ip_count,
    is_load_balancer, ingress_entries.
  cbn [field Py.get rbind].
  destruct (Py.lookup "spec" kvs) as [[| | | | | |sp]|]; try discriminate.
  - cbn [field Py.get rbind]. rewrite type_test.
    destruct (match Py.lookup "type" sp with
              | Some (JStr t) => String.eqb t "LoadBalancer" | _ => false end) eqn:LB;
      cbn [negb orb]; [|intros _; now rewrite app_nil_r].
    destruct (Py.lookup "status" kvs) as [[| | | | | |st]|] eqn:St; try discriminate;
      cbn [field Py.get rbind Py.lookup Py.truthy Py.iter fold_r filter flat_map List.length];
      [|intros _; now rewrite app_nil_r].
    destruct (Py.lookup "loadBalancer" st) as [[| | | | | |lb]|] eqn:Lb; try discriminate;
      cbn [field Py.get rbind Py.lookup Py.truthy Py.iter fold_r filter flat_map List.length];
      [|intros _; now rewrite app_nil_r].
    destruct (Py.lookup "ingress" lb) as [[| | | | |ings|]|] eqn:In; try discriminate;
      cbn [field Py.get rbind Py.lookup Py.truthy Py.iter fold_r filter flat_map List.length];
      try (intros _; now rewrite app_nil_r).
    intros H. apply andb_true_iff in H as [O M].
    assert (I : Py.iter (if match ings with [] => false | _ :: _ => true end
                         then JArr ings else JArr []) = Ok ings)
      by now destruct ings.
    rewrite I. cbn [rbind].
    destruct (existsb has_external_ip ings) eqn:X; cbn [negb orb] in M.
    + unfold metadata_complete in M. cbn [field] in M.
      destruct (Py.lookup "metadata" kvs) as [md|] eqn:Md; [|discriminate].
      destruct (field "name" md) as [n|] eqn:Hn; [|discriminate].
      destruct (field "namespace" md) as [ns|] eqn:Hns; [|discriminate].
      apply (ingress_loop (JObj kvs) md n ns); [assumption|]. intros _. now cbn [field].
    + apply (ingress_loop (JObj kvs) JNull JNull JNull); [assumption|]. congruence.
  - cbn [Py.get Py.lookup Py.eq_str negb rbind]. intros _. now rewrite app_nil_r.
Qed.

Lemma missing_structure_shape svc :
  missing_structure svc -> service_shape svc = true /\ expected_records svc = [].
Proof.
  intros M. destruct M as [kvs S | kvs sp S T | kvs sp S St | kvs sp st S St Lb
                           | kvs sp st lb S St Lb In | kvs sp st lb ings S St Lb In O X];
    unfold service_shape, expected_records; cbn [field].
  - unfold is_load_balancer. cbn [field]. now rewrite S.
  - now rewrite S, T.
  - rewrite S, St. unfold ingress_entries. cbn [field]. rewrite St.
    split; [apply orb_true_r | now destruct (is_load_balancer _)].
  - rewrite S, St, Lb. unfold ingress_entries. cbn [field]. rewrite St. cbn [field].
    rewrite Lb. split; [apply orb_true_r | now destruct (is_load_balancer _)].
  - rewrite S, St, Lb. unfold ingress_entries. cbn [field]. rewrite St. cbn [field].
    rewrite Lb. cbn [field].
    destruct In as [-> | ->];
      (split; [apply orb_true_r | now destruct (is_load_balancer _)]).
  - rewrite S, St, Lb, In, O, X. unfold ingress_entries. cbn [field]. rewrite St.
    cbn [field]. rewrite Lb. cbn [field]. rewrite In.
    split; [apply orb_true_r|]. destruct (is_load_balancer _); [|reflexivity].
    clear -X. induction ings as [|ing ings IH]; [reflexivity|].
    cbn [existsb filter] in *. apply orb_false_iff in X as [-> X]. now apply IH.
Qed.

Lemma svc_loop svcs acc :
  forallb service_shape svcs = true ->
  fold_r svc_step svcs acc = Ok (acc ++ flat_map expected_records svcs)%list
  /\ List.length (flat_map expected_records svcs)
     = list_sum (map external_ip_count svcs).
Proof.
  revert acc; induction svcs as [|svc svcs IH]; intros acc H;
    cbn [fold_r flat_map forallb map list_sum] in *.
  - now rewrite app_nil_r.
  - apply andb_true_iff in H as [Hs H].
    destruct (svc_step_shape svc acc Hs) as [S L]. rewrite S. cbn [rbind].
    destruct (IH (acc ++ expected_records svc)%list H) as [F Ln].
    rewrite F, <- app_assoc, length_app, L, Ln. now split.
Qed.

Lemma collect_shape services svcs :
  items_of services = Some svcs ->
  forallb service_shape svcs = true ->
  collect_public_svcs services = Ok (flat_map expected_records svcs).
Proof.
  intros I H. unfold collect_public_svcs.
  destruct services as [| | | | | |kvs]; try discriminate I.
  cbn [items_of Py.get rbind] in *.
  destruct (Py.lookup "items" kvs) as [[| | | | |l|]|]; try discriminate I;
    injection I as <-; cbn [Py.iter rbind].
  - now destruct (svc_loop l [] H).
  - reflexivity.
Qed.

Section Listing.

Variable world : oracle.
Variable json_loads : string -> option json.

(** C10. On a listing that parsed, whose items have the structure the
    cluster gives them (fields may be missing), the service listing does not
    raise. Items without spec, status or loadBalancer, items of another
    type, a null or absent ingress, and entries without a truthy ip add no
    record; every record comes from one ingress entry with an external IP on
    a LoadBalancer service, one record per such entry. *)
Theorem listing_total_over_missing_structure
        (context : string) (s : state) (services : json) (svcs : list json) :
  returncode (svc_reply world context s) = 0 ->
  json_loads (stdout (svc_reply world context s)) = Some services ->
  items_of services = Some svcs ->
  forallb service_shape svcs = true ->
  list_public_loadbalancers world json_loads context s
  = (Ok (flat_map expected_records svcs), after s [Cmd (svc_list_cmd context)])
  /\ List.length (flat_map expected_records svcs)
     = list_sum (map external_ip_count svcs)
  /\ (forall svc public_svcs,
        missing_structure svc ->
        service_shape svc = true /\ svc_step svc public_svcs = Ok public_svcs).
Proof.
  intros Hrc Hj I H. split; [|split].
  - rewrite (listing_parsed world json_loads context s services Hrc Hj).
    now rewrite (collect_shape services svcs I H).
  - now destruct (svc_loop svcs [] H).
  - intros svc acc M. destruct (missing_structure_shape svc M) as [Sh E].
    split; [exact Sh|]. destruct (svc_step_shape svc acc Sh) as [St _].
    now rewrite St, E, app_nil_r.
Qed.

End Listing.

(** ** The orchestrator *)

Section Orchestrator.

Variable world : oracle.
Variable json_loads : string -> option json.

Definition banner0 : list event :=
  [Print (nl ++ PyStr.mul "=" 60) [];
   Print "SECURITY POSTURE VERIFICATION REPORT" [];
   Print (PyStr.mul "=" 60) []].

(** The report of a run whose checks came out as [a], [b] and [c]. *)
Definition report_of (a b c : bool) : list (string * bool) :=
  [("intended_connectivity", a); ("public_exposure", b); ("network_isolation", c)].

Definition result_line (tp : string * bool) : event :=
  Print "{}: {}" [AStr (if snd tp then "✓ PASS" else "❌ FAIL"); AStr (fst tp)].

Definition overall_line (all_passed : bool) : event :=
  Print (nl ++ "Overall: {}")
        [AStr (if all_passed then "✓ ALL TESTS PASSED" else "❌ SOME TESTS FAILED")].

Definition summary_events (report : list (string * bool)) : list event :=
  ([Print (nl ++ PyStr.mul "=" 60) [];
    Print "VERIFICATION SUMMARY" [];
    Print (PyStr.mul "=" 60) []]
   ++ map result_line report
   ++ [overall_line (all_values report)])%list.

(** The state a completed run ends in. *)
Definition finished (report : list (string * bool)) (s3 : state) : state :=
  {| self := {| c1_context := c1_context (self s3);
                c2_context := c2_context (self s3);
                results := report |};
     trace := trace s3 ++ summary_events report |}.

Lemma verify_all_run s :
  verify_all world json_loads s
  = match test_intended_connectivity world (after s banner0) with
    | (Raise e, s1) => (Raise e, s1)
    | (Ok a, s1) =>
        match test_public_exposure world json_loads s1 with
        | (Raise e, s2) => (Raise e, s2)
        | (Ok b, s2) =>
            match test_network_isolation world json_loads s2 with
            | (Raise e, s3) => (Raise e, s3)
            | (Ok c, s3) => (Ok (report_of a b c), finished (report_of a b c) s3)
            end
        end
    end.
Proof.
  unfold verify_all. rewrite <- (after_nil s) at 1. step.
  change (after s _) with (after s banner0).
  destruct (test_intended_connectivity _ _) as [[a|e] s1]; [|reflexivity].
  destruct (test_public_exposure _ _ _) as [[b|e] s2]; [|reflexivity].
  destruct (test_network_isolation _ _ _) as [[c|e] s3]; [|reflexivity].
  unfold set_results, finished, summary_events, report_of, emit.
  cbn [for_each self trace]. step. unfold emit. cbn [self trace map fst snd app].
  rewrite <- !app_assoc. reflexivity.
Qed.

(** *** Every computation only adds to the trace *)

Definition grows {A} (c : M A) : Prop :=
  forall s, exists evs, snd (c s) = after s evs.

Lemma grows_ret {A} (a : A) : grows (ret a).
Proof. intros s. exists []. now rewrite after_nil. Qed.

Lemma grows_lift {A} (r : result A) : grows (lift r).
Proof. intros s. exists []. now rewrite after_nil. Qed.

Lemma grows_print fmt args : grows (print fmt args).
Proof. intros s. now exists [Print fmt args]. Qed.

Lemma grows_get_self : grows get_self.
Proof. intros s. exists []. now rewrite after_nil. Qed.

Lemma grows_run_cmd cmd : grows (run_cmd world cmd).
Proof. intros s. now exists [Cmd cmd]. Qed.

Lemma grows_bind {A B} (c : M A) (k : A -> M B) :
  grows c -> (forall a, grows (k a)) -> grows (bind c k).
Proof.
  intros Hc Hk s. unfold bind. destruct (Hc s) as [e1 E1].
  destruct (c s) as [[a|e] s1]; cbn [snd] in *; subst s1.
  - destruct (Hk a (after s e1)) as [e2 E2]. exists (e1 ++ e2)%list.
    now rewrite E2, after_after.
  - now exists e1.
Qed.

Lemma grows_for_each {A} (l : list A) (body : A -> M unit) :
  (forall x, grows (body x)) -> grows (for_each l body).
Proof.
  intros Hb. induction l as [|x l IH]; cbn [for_each].
  - apply grows_ret.
  - apply grows_bind; auto.
Qed.

Lemma grows_print_error err : grows (print_error err).
Proof.
  unfold print_error. destruct (PyStr.truthy err); [apply grows_print | apply grows_ret].
Qed.

Create HintDb grows.

#[local] Hint Resolve grows_ret grows_lift grows_print grows_get_self grows_run_cmd
  grows_print_error : grows.

Ltac grow :=
  repeat first
    [ solve [auto with grows]
    | apply grows_for_each; intros ?
    | apply grows_bind; [|intros ?]
    | match goal with
      | |- grows (if ?b then _ else _) => destruct b
      | |- grows (match ?x with _ => _ end) => destruct x
      end ].

Lemma grows_connectivity : grows (test_intended_connectivity world).
Proof. unfold test_intended_connectivity, rule, exec_in_pod. grow. Qed.

Lemma grows_listing context : grows (list_public_loadbalancers world json_loads context).
Proof. unfold list_public_loadbalancers. grow. Qed.

Lemma grows_exposure_loop clusters : grows (exposure_loop world json_loads clusters).
Proof.
  induction clusters as [|[context cluster_name] rest IH]; cbn [exposure_loop].
  - apply grows_ret.
  - apply grows_bind; [apply grows_listing|]. intros eps.
    unfold print_endpoint. destruct eps; grow; exact IH.
Qed.

#[local] Hint Resolve grows_exposure_loop : grows.

Lemma grows_exposure : grows (test_public_exposure world json_loads).
Proof. unfold test_public_exposure, rule. grow. Qed.

Lemma grows_summarize cluster_name nsg : grows (summarize_nsg cluster_name nsg).
Proof. unfold summarize_nsg. grow. Qed.

Lemma grows_isolation_loop config ok :
  grows (isolation_loop world json_loads config ok).
Proof.
  revert ok; induction config as [|[[context cluster_name] rg] rest IH]; intros ok;
    cbn [isolation_loop].
  - apply grows_ret.
  - apply grows_bind; [apply grows_run_cmd|]. intros r.
    destruct (negb _); [grow; apply IH|].
    destruct (json_loads _); [|grow; apply IH].
    destruct (negb _); grow; try apply IH; apply grows_summarize.
Qed.

#[local] Hint Resolve grows_isolation_loop : grows.

Lemma grows_isolation : grows (test_network_isolation world json_loads).
Proof. unfold test_network_isolation, rule. grow. Qed.

(** A check opens with its banner and goes on adding to the trace. *)
Lemma opens_with_banner {A} (title : string) (rest : M A) :
  grows rest ->
  forall s, exists evs,
    snd ((print title [] ;; rule ;; rest) s)
    = after s ([Print title []; Print (PyStr.mul "=" 60) []] ++ evs).
Proof.
  intros G s. unfold bind at 1 2, rule, print. cbn [fst snd].
  rewrite (emit_start (Print title []) s), emit_after. cbn [app].
  destruct (G (after s [Print title []; Print (PyStr.mul "=" 60) []])) as [evs E].
  exists evs. destruct (rest _) as [[a|e] s']; cbn [snd] in *; subst s';
    now rewrite after_after.
Qed.

Lemma connectivity_opens s :
  exists evs, snd (test_intended_connectivity world s) = after s (banner1 ++ evs).
Proof.
  apply (opens_with_banner
           (nl ++ "[TEST 1] Intended Cross-Cluster Connectivity (C1 -> C2 validation)")).
  unfold exec_in_pod. grow.
Qed.

Lemma exposure_opens s :
  exists evs, snd (test_public_exposure world json_loads s) = after s (banner2 ++ evs).
Proof. apply (opens_with_banner (nl ++ "[TEST 2] Public Exposure Check")). grow. Qed.

Lemma isolation_opens s :
  exists evs, snd (test_network_isolation world json_loads s) = after s (banner3 ++ evs).
Proof.
  apply (opens_with_banner (nl ++ "[TEST 3] Network Isolation (NSG Summary)")). grow.
Qed.

(** C1. Whatever the three checks return, [verify_all] runs them one after
    the other, connectivity, then exposure, then isolation, each starting
    where the one before ended; a false result stops nothing. The report
    holds the three results, and the overall verdict, printed after the
    events of the third check, is the conjunction of these three. *)
Theorem verify_all_runs_three_checks_in_order
        (s s1 s2 s3 : state) (a b c : bool) :
  test_intended_connectivity world (after s banner0) = (Ok a, s1) ->
  test_public_exposure world json_loads s1 = (Ok b, s2) ->
  test_network_isolation world json_loads s2 = (Ok c, s3) ->
  exists e1 e2 e3 s',
    verify_all world json_loads s = (Ok (report_of a b c), s')
    /\ trace s1 = (trace s ++ banner0 ++ banner1 ++ e1)%list
    /\ trace s2 = (trace s1 ++ banner2 ++ e2)%list
    /\ trace s3 = (trace s2 ++ banner3 ++ e3)%list
    /\ trace s' = (trace s3 ++ summary_events (report_of a b c))%list
    /\ all_values (report_of a b c) = a && b && c
    /\ last (trace s') (Cmd "") = overall_line (a && b && c).
Proof.
  intros T1 T2 T3.
  destruct (connectivity_opens (after s banner0)) as [e1 E1].
  destruct (exposure_opens s1) as [e2 E2].
  destruct (isolation_opens s2) as [e3 E3].
  rewrite T1 in E1. rewrite T2 in E2. rewrite T3 in E3. cbn [snd] in *.
  exists e1, e2, e3, (finished (report_of a b c) s3).
  rewrite verify_all_run, T1, T2, T3.
  assert (V : all_values (report_of a b c) = a && b && c).
  { unfold all_values, report_of. cbn. now rewrite andb_true_r, andb_assoc. }
  repeat split.
  - rewrite E1, after_after. cbn [trace after]. reflexivity.
  - now rewrite E2.
  - now rewrite E3.
  - exact V.
  - cbn [finished trace]. unfold summary_events. rewrite !app_assoc.
    rewrite last_last. now rewrite V.
Qed.

(** C2. A report that [verify_all] returns has exactly the three entries
    intended_connectivity, public_exposure and network_isolation, in that
    order, each holding what its check returned, whatever that is; it is
    also the report kept in the verifier. *)
Theorem completed_report_has_three_named_results
        (s s' : state) (report : list (string * bool)) :
  verify_all world json_loads s = (Ok report, s') ->
  map fst report = ["intended_connectivity"; "public_exposure"; "network_isolation"]
  /\ results (self s') = report
  /\ exists a b c s1 s2 s3,
       test_intended_connectivity world (after s banner0) = (Ok a, s1)
       /\ test_public_exposure world json_loads s1 = (Ok b, s2)
       /\ test_network_isolation world json_loads s2 = (Ok c, s3)
       /\ report = [("intended_connectivity", a);
                    ("public_exposure", b);
                    ("network_isolation", c)]
       /\ s' = finished report s3.
Proof.
  rewrite verify_all_run.
  destruct (test_intended_connectivity _ _) as [[a|e] s1] eqn:T1; [|discriminate].
  destruct (test_public_exposure _ _ _) as [[b|e] s2] eqn:T2; [|discriminate].
  destruct (test_network_isolation _ _ _) as [[c|e] s3] eqn:T3; [|discriminate].
  intros H. injection H as <- <-.
  split; [reflexivity|]. split; [reflexivity|].
  now exists a, b, c, s1, s2, s3.
Qed.

End Orchestrator.

(** ** The theorems at work on concrete runs *)

Module Runs.

Import Fixture.

(** The pod is pending: the gate closes. *)
Lemma precondition_gate_blocks_probe_witness :
  (returncode (phase_reply world_fail start) <> 0
   \/ PyStr.strip (stdout (phase_reply world_fail start)) <> "Running")
  /\ exists evs,
       test_intended_connectivity world_fail start = (Ok false, after start evs)
       /\ commands evs = [get_dbg_cmd "aks-c1-eastus"]
       /\ ~ In (Cmd (probe_cmd "aks-c1-eastus")) evs.
Proof.
  assert (H : returncode (phase_reply world_fail start) <> 0
              \/ PyStr.strip (stdout (phase_reply world_fail start)) <> "Running")
    by (right; vm_compute; discriminate).
  split; [exact H|]. exact (precondition_gate_blocks_probe world_fail start H).
Defined.

(** The pod runs and the probe answers with the marker. *)
Lemma probe_decides_connectivity_witness :
  returncode (phase_reply world_pass start) = 0
  /\ PyStr.strip (stdout (phase_reply world_pass start)) = "Running"
  /\ exists b evs,
       test_intended_connectivity world_pass start = (Ok b, after start evs)
       /\ In (Cmd (probe_cmd "aks-c1-eastus")) evs
       /\ (b = true <->
           returncode (probe_reply world_pass start) = 0
           /\ exists pre post,
                PyStr.strip (stdout (probe_reply world_pass start))
                = pre ++ "OK-C2" ++ post)
       /\ (b = false <->
           returncode (probe_reply world_pass start) <> 0
           \/ ~ exists pre post,
                  PyStr.strip (stdout (probe_reply world_pass start))
                  = pre ++ "OK-C2" ++ post).
Proof.
  split; [reflexivity|]. split; [reflexivity|].
  exact (probe_decides_connectivity world_pass start eq_refl eq_refl).
Defined.

Lemma frontend_is_named : named frontend_ep.
Proof. now exists "frontend-svc". Qed.

Lemma admin_is_named : named admin_ep.
Proof. now exists "admin-svc". Qed.

Lemma admin_is_not_allow_listed : not_allow_listed admin_ep.
Proof.
  exists "admin-svc". split; [reflexivity|].
  split; intros H; apply contains_lower in H; try reflexivity; discriminate H.
Qed.

Lemma external_is_allow_listed : allow_listed external_ep.
Proof.
  exists "Frontend-External". split; [reflexivity|]. left.
  now exists "", "Frontend", "-External".
Qed.

(** C1 exposes frontend-svc and admin-svc, C2 nothing. *)
Lemma exposure_false_iff_not_allow_listed_witness :
  fst (list_public_loadbalancers world_fail loads "aks-c1-eastus" (first_scan start))
  = Ok [frontend_ep; admin_ep]
  /\ fst (list_public_loadbalancers world_fail loads "aks-c2-westus"
            (second_scan world_fail loads start [frontend_ep; admin_ep])) = Ok []
  /\ Forall named ([frontend_ep; admin_ep] ++ [])
  /\ exists b s',
       test_public_exposure world_fail loads start = (Ok b, s')
       /\ (b = false <-> Exists not_allow_listed ([frontend_ep; admin_ep] ++ []))
       /\ ([frontend_ep; admin_ep] = [] -> @nil endpoint = [] -> b = true).
Proof.
  assert (N : Forall named ([frontend_ep; admin_ep] ++ []))
    by (repeat constructor; [apply frontend_is_named | apply admin_is_named]).
  split; [reflexivity|]. split; [reflexivity|]. split; [exact N|].
  exact (exposure_false_iff_not_allow_listed world_fail loads start
           [frontend_ep; admin_ep] [] eq_refl eq_refl N).
Defined.

(** The services of C1 cannot be listed, C2 exposes its frontend only. *)
Lemma listing_failure_is_not_fatal_witness :
  (listing_failed world_c1_down loads "aks-c1-eastus" (first_scan start)
   /\ clean_cluster world_c1_down loads "aks-c2-westus"
        (second_scan world_c1_down loads start []))
  /\ (exists s', test_public_exposure world_c1_down loads start = (Ok true, s'))
  /\ fst (list_public_loadbalancers world_c1_down loads "aks-c1-eastus"
            (first_scan start)) = Ok [].
Proof.
  assert (F : listing_failed world_c1_down loads "aks-c1-eastus" (first_scan start))
    by (left; vm_compute; discriminate).
  assert (C : clean_cluster world_c1_down loads "aks-c2-westus"
                (second_scan world_c1_down loads start [])).
  { exists [external_ep]. split; [reflexivity|].
    constructor; [apply external_is_allow_listed | constructor]. }
  split; [exact (conj F C)|].
  destruct (listing_failure_is_not_fatal world_c1_down loads start
              (or_introl (conj F C))) as [P E].
  split; [exact P|]. exact (E "aks-c1-eastus" (first_scan start) F).
Defined.

(** admin-svc in C1: the check prints both endpoints, then admin-svc as
    the violator, and fails after one listing. *)
Lemma exposure_stops_at_first_violation_witness :
  fst (list_public_loadbalancers world_fail loads "aks-c1-eastus" (first_scan start))
  = Ok [frontend_ep; admin_ep]
  /\ Forall named [frontend_ep; admin_ep]
  /\ Exists not_allow_listed [frontend_ep; admin_ep]
  /\ exists crit evs,
       violators [frontend_ep; admin_ep] crit
       /\ crit <> []
       /\ evs = ([Print (nl ++ "[TEST 2] Public Exposure Check") [];
                  Print (PyStr.mul "=" 60) [];
                  Cmd (svc_list_cmd "aks-c1-eastus");
                  Print "⚠️  {} has publicly exposed LoadBalancer services:" [AStr "C1"]]
                 ++ map (fun svc => Print "   - {}/{}: {}"
                                      [AJson (namespace svc); AJson (name svc);
                                       AJson (ip svc)]) [frontend_ep; admin_ep]
                 ++ Print "❌ FAILED: Non-allowed services exposed publicly:" []
                 :: map (fun svc => Print "   - {}/{}: {}"
                                      [AJson (namespace svc); AJson (name svc);
                                       AJson (ip svc)]) crit)%list
       /\ test_public_exposure world_fail loads start = (Ok false, after start evs)
       /\ commands evs = [svc_list_cmd "aks-c1-eastus"].
Proof.
  assert (N : Forall named [frontend_ep; admin_ep])
    by (repeat constructor; [apply frontend_is_named | apply admin_is_named]).
  assert (X : Exists not_allow_listed [frontend_ep; admin_ep])
    by (right; left; apply admin_is_not_allow_listed).
  split; [reflexivity|]. split; [exact N|]. split; [exact X|].
  exact (exposure_stops_at_first_violation world_fail loads start
           [frontend_ep; admin_ep] eq_refl N X).
Defined.

(** C7 as stated fails here: C1 yields admin-svc, the check returns false,
    and the only command that ran is the listing of C1; the listing of C2
    is not among the commands. *)
Lemma second_cluster_is_not_listed_after_violation :
  fst (list_public_loadbalancers world_fail loads "aks-c1-eastus" (first_scan start))
  = Ok [frontend_ep; admin_ep]
  /\ fst (test_public_exposure world_fail loads start) = Ok false
  /\ commands (trace (snd (test_public_exposure world_fail loads start)))
     = ["kubectl --context aks-c1-eastus get svc -A -o json"]
  /\ existsb (String.eqb (svc_list_cmd "aks-c2-westus"))
            (commands (trace (snd (test_public_exposure world_fail loads start))))
     = false.
Proof. repeat split; vm_compute; reflexivity. Qed.

Lemma listings_pass_well_formed :
  well_formed_listing world_pass loads "rg-c1-eastus" (first_listing start)
  /\ well_formed_listing world_pass loads "rg-c2-westus"
       (second_listing world_pass loads start).
Proof.
  split; intros v _ H; vm_compute in H; injection H as <-; reflexivity.
Qed.

Lemma listings_fail_well_formed :
  well_formed_listing world_fail loads "rg-c1-eastus" (first_listing start)
  /\ well_formed_listing world_fail loads "rg-c2-westus"
       (second_listing world_fail loads start).
Proof.
  split; intros v R H; vm_compute in H, R; [injection H as <-; reflexivity | discriminate R].
Qed.

(** One rule group with two Allow rules and one Deny rule in each cluster. *)
Lemma isolation_reports_access_counts_witness :
  well_formed_listing world_pass loads "rg-c1-eastus" (first_listing start)
  /\ well_formed_listing world_pass loads "rg-c2-westus"
       (second_listing world_pass loads start)
  /\ In (Print "✓ {} NSG '{}': {} allow rules, {} deny rules"
            [AStr "C1"; AJson (JStr "nsg1"); AInt 2; AInt 1])
        (trace (snd (test_network_isolation world_pass loads start)))
  /\ In (Print "✓ {} NSG '{}': {} allow rules, {} deny rules"
            [AStr "C2"; AJson (JStr "nsg1"); AInt 2; AInt 1])
        (trace (snd (test_network_isolation world_pass loads start))).
Proof.
  destruct listings_pass_well_formed as [W1 W2].
  split; [exact W1|]. split; [exact W2|].
  destruct (isolation_reports_access_counts world_pass loads start W1 W2)
    as (b & s' & E & H1 & H2 & _).
  rewrite E. cbn [snd]. split.
  - exact (H1 [nsg1] nsg1 eq_refl eq_refl (or_introl eq_refl)).
  - exact (H2 [nsg1] nsg1 eq_refl eq_refl (or_introl eq_refl)).
Defined.

(** C1 has no rule group, the rule groups of C2 cannot be listed. *)
Lemma isolation_false_iff_retrieval_failed_witness :
  well_formed_listing world_fail loads "rg-c1-eastus" (first_listing start)
  /\ well_formed_listing world_fail loads "rg-c2-westus"
       (second_listing world_fail loads start)
  /\ fst (test_network_isolation world_fail loads start) = Ok false
  /\ In (Print "⚠️  No NSGs found in {} (rg={})" [AStr "C1"; AStr "rg-c1-eastus"])
        (trace (snd (test_network_isolation world_fail loads start))).
Proof.
  destruct listings_fail_well_formed as [W1 W2].
  split; [exact W1|]. split; [exact W2|].
  destruct (isolation_false_iff_retrieval_failed world_fail loads start W1 W2)
    as (b & s' & E & F & _ & N1 & _).
  rewrite E. cbn [fst snd]. split.
  - f_equal. apply F. right. left. vm_compute. discriminate.
  - exact (proj2 (N1 eq_refl eq_refl)).
Defined.

(** Eight items, six of them with something missing, three addresses. *)
Lemma listing_total_over_missing_structure_witness :
  returncode (svc_reply world_mixed "aks-c1-eastus" start) = 0
  /\ loads (stdout (svc_reply world_mixed "aks-c1-eastus" start)) = Some mixed_listing
  /\ items_of mixed_listing = Some mixed_items
  /\ forallb service_shape mixed_items = true
  /\ fst (list_public_loadbalancers world_mixed loads "aks-c1-eastus" start)
     = Ok [{| name := JStr "frontend-external"; namespace := JStr "shop";
              ip := JStr "20.1.2.3" |};
           {| name := JStr "c2-validation"; namespace := JStr "c2";
              ip := JStr "13.91.126.20" |};
           {| name := JStr "c2-validation"; namespace := JStr "c2";
              ip := JStr "13.91.126.21" |}]
  /\ list_sum (map external_ip_count mixed_items) = 3%nat
  /\ svc_step (JObj [("spec", JObj [("type", JStr "LoadBalancer")])]) [admin_ep]
     = Ok [admin_ep].
Proof.
  split; [reflexivity|]. split; [reflexivity|]. split; [reflexivity|].
  split; [reflexivity|].
  destruct (listing_total_over_missing_structure world_mixed loads "aks-c1-eastus"
              start mixed_listing mixed_items eq_refl eq_refl eq_refl eq_refl)
    as (E & L & M).
  rewrite E. split; [reflexivity|]. split; [reflexivity|].
  apply M. now apply no_status with (sp := [("type", JStr "LoadBalancer")]).
Defined.

(** All three checks fail, and all three run. *)
Lemma verify_all_runs_three_checks_in_order_witness :
  test_intended_connectivity world_fail (after start banner0)
  = (Ok false, snd (test_intended_connectivity world_fail (after start banner0)))
  /\ test_public_exposure world_fail loads
       (snd (test_intended_connectivity world_fail (after start banner0)))
     = (Ok false,
        snd (test_public_exposure world_fail loads
               (snd (test_intended_connectivity world_fail (after start banner0)))))
  /\ test_network_isolation world_fail loads
       (snd (test_public_exposure world_fail loads
               (snd (test_intended_connectivity world_fail (after start banner0)))))
     = (Ok false,
        snd (test_network_isolation world_fail loads
               (snd (test_public_exposure world_fail loads
                       (snd (test_intended_connectivity world_fail
                               (after start banner0)))))))
  /\ fst (verify_all world_fail loads start) = Ok (report_of false false false)
  /\ last (trace (snd (verify_all world_fail loads start))) (Cmd "")
     = overall_line false.
Proof.
  assert (T1 : test_intended_connectivity world_fail (after start banner0)
               = (Ok false,
                  snd (test_intended_connectivity world_fail (after start banner0))))
    by (vm_compute; reflexivity).
  assert (T2 : test_public_exposure world_fail loads
                 (snd (test_intended_connectivity world_fail (after start banner0)))
               = (Ok false,
                  snd (test_public_exposure world_fail loads
                         (snd (test_intended_connectivity world_fail
                                 (after start banner0))))))
    by (vm_compute; reflexivity).
  assert (T3 : test_network_isolation world_fail loads
                 (snd (test_public_exposure world_fail loads
                         (snd (test_intended_connectivity world_fail
                                 (after start banner0)))))
               = (Ok false,
                  snd (test_network_isolation world_fail loads
                         (snd (test_public_exposure world_fail loads
                                 (snd (test_intended_connectivity world_fail
                                         (after start banner0))))))))
    by (vm_compute; reflexivity).
  split; [exact T1|]. split; [exact T2|]. split; [exact T3|].
  destruct (verify_all_runs_three_checks_in_order world_fail loads start _ _ _
              false false false T1 T2 T3)
    as (e1 & e2 & e3 & s' & E & _ & _ & _ & _ & _ & L).
  rewrite E. cbn [fst snd]. split; [reflexivity | exact L].
Defined.

(** The report of a run in which everything fails. *)
Lemma completed_report_has_three_named_results_witness :
  verify_all world_fail loads start
  = (Ok (report_of false false false), snd (verify_all world_fail loads start))
  /\ map fst (report_of false false false)
     = ["intended_connectivity"; "public_exposure"; "network_isolation"]
  /\ results (self (snd (verify_all world_fail loads start)))
     = report_of false false false.
Proof.
  assert (V : verify_all world_fail loads start
              = (Ok (report_of false false false),
                 snd (verify_all world_fail loads start)))
    by (vm_compute; reflexivity).
  split; [exact V|].
  destruct (completed_report_has_three_named_results world_fail loads start _ _ V)
    as (K & R & _).
  exact (conj K R).
Defined.

(** *** The scenarios of the specification *)

(** Scenario 1: everything in order, every check passes. *)
Example scenario_all_pass :
  fst (verify_all world_pass loads start) = Ok (report_of true true true)
  /\ commands (trace (snd (verify_all world_pass loads start)))
     = [phase_cmd; exec_cmd;
        svc_list_cmd "aks-c1-eastus"; svc_list_cmd "aks-c2-westus";
        nsg_list_cmd "rg-c1-eastus"; nsg_list_cmd "rg-c2-westus"].
Proof. split; vm_compute; reflexivity. Qed.

(** Scenario 2: the probe pod is pending, the probe is never attempted. *)
Example scenario_pending :
  fst (test_intended_connectivity world_fail start) = Ok false
  /\ commands (trace (snd (test_intended_connectivity world_fail start))) = [phase_cmd].
Proof. split; vm_compute; reflexivity. Qed.

(** A phase followed by a no-break space is still Running: the gate
    opens and the probe is run. *)
Example gate_opens_behind_a_no_break_space :
  let phase := "Running" ++ string_of_list_ascii (map ascii_of_nat [194; 160]%nat) in
  let world := scripted [(phase_cmd, ok_response phase);
                         (exec_cmd, ok_response "OK-C2")] in
  fst (test_intended_connectivity world start) = Ok true
  /\ commands (trace (snd (test_intended_connectivity world start)))
     = [phase_cmd; exec_cmd].
Proof. split; vm_compute; reflexivity. Qed.

(** Scenario 3: frontend-svc and admin-svc are exposed; admin-svc is the
    violator the diagnostic lists. *)
Example scenario_admin_exposed :
  fst (test_public_exposure world_fail loads start) = Ok false
  /\ skipn 6 (trace (snd (test_public_exposure world_fail loads start)))
     = [Print "❌ FAILED: Non-allowed services exposed publicly:" [];
        Print "   - {}/{}: {}" [AJson (JStr "default"); AJson (JStr "admin-svc");
                                AJson (JStr "5.6.7.8")]].
Proof. split; vm_compute; reflexivity. Qed.

(** Scenario 4: the rule groups of C2 cannot be listed. *)
Example scenario_c2_listing_fails :
  fst (test_network_isolation world_fail loads start) = Ok false
  /\ commands (trace (snd (test_network_isolation world_fail loads start)))
     = [nsg_list_cmd "rg-c1-eastus"; nsg_list_cmd "rg-c2-westus"].
Proof. split; vm_compute; reflexivity. Qed.

(** A service with an address and no metadata makes the listing raise. *)
Example listing_raises_without_metadata :
  collect_public_svcs
    (services [JObj [("spec", JObj [("type", JStr "LoadBalancer")]);
                     ("status",
                      JObj [("loadBalancer",
                             JObj [("ingress", JArr [JObj [("ip", JStr "10.0.0.1")]])])])]])
  = Raise (KeyError "metadata").
Proof. reflexivity. Qed.

End Runs.

(** * Further behaviour of the verifier *)

(** ** Which commands a computation runs *)

(** The computation prints at most: it runs no command. *)
Definition quiet {A} (c : M A) : Prop :=
  forall s, exists evs, snd (c s) = after s evs /\ commands evs = [].

(** From [s] the computation runs the first few of [cmds], in order, and
    nothing else. *)
Definition issues {A} (c : M A) (s : state) (cmds : list string) : Prop :=
  exists evs k, snd (c s) = after s evs /\ commands evs = firstn k cmds.

Lemma quiet_ret {A} (a : A) : quiet (ret a).
Proof. intros s. exists []. now rewrite after_nil. Qed.

Lemma quiet_lift {A} (r : result A) : quiet (lift r).
Proof. intros s. exists []. now rewrite after_nil. Qed.

Lemma quiet_print fmt args : quiet (print fmt args).
Proof. intros s. now exists [Print fmt args]. Qed.

Lemma quiet_get_self : quiet get_self.
Proof. intros s. exists []. now rewrite after_nil. Qed.

Lemma quiet_bind {A B} (c : M A) (k : A -> M B) :
  quiet c -> (forall a, quiet (k a)) -> quiet (bind c k).
Proof.
  intros Hc Hk s. unfold bind. destruct (Hc s) as (e1 & E1 & C1).
  destruct (c s) as [[a|e] s1]; cbn [snd] in *; subst s1.
  - destruct (Hk a (after s e1)) as (e2 & E2 & C2). exists (e1 ++ e2)%list.
    rewrite E2, after_after, commands_app, C1, C2. now split.
  - now exists e1.
Qed.

Lemma quiet_for_each {A} (l : list A) (body : A -> M unit) :
  (forall x, quiet (body x)) -> quiet (for_each l body).
Proof.
  intros Hb. induction l as [|x l IH]; cbn [for_each].
  - apply quiet_ret.
  - apply quiet_bind; auto.
Qed.

Lemma quiet_print_error err : quiet (print_error err).
Proof.
  unfold print_error. destruct (PyStr.truthy err); [apply quiet_print | apply quiet_ret].
Qed.

Lemma quiet_summarize cluster_name nsg : quiet (summarize_nsg cluster_name nsg).
Proof.
  unfold summarize_nsg.
  repeat first [apply quiet_lift | apply quiet_print | apply quiet_bind; [|intros ?]].
Qed.

Lemma issues_quiet {A} (c : M A) s cmds : quiet c -> issues c s cmds.
Proof. intros Q. destruct (Q s) as (evs & E & C). now exists evs, 0%nat. Qed.

Lemma issues_after_quiet {A B} (c : M A) (k : A -> M B) s cmds :
  quiet c -> (forall a s', issues (k a) s' cmds) -> issues (bind c k) s cmds.
Proof.
  intros Q Hk. unfold issues, bind. destruct (Q s) as (e1 & E1 & C1).
  destruct (c s) as [[a|e] s1]; cbn [snd] in *; subst s1.
  - destruct (Hk a (after s e1)) as (e2 & n & E2 & C2). exists (e1 ++ e2)%list, n.
    rewrite E2, after_after, commands_app, C1, C2. now split.
  - now exists e1, 0%nat.
Qed.

(** A computation that runs the one command [x], then goes on. *)
Lemma issues_after_cmd {A B} (c : M A) (k : A -> M B) s x cmds :
  (exists e0, snd (c s) = after s e0 /\ commands e0 = [x]) ->
  (forall a s', issues (k a) s' cmds) ->
  exists evs n, snd (bind c k s) = after s evs /\ commands evs = x :: firstn n cmds.
Proof.
  intros (e1 & E1 & C1) Hk. unfold bind.
  destruct (c s) as [[a|e] s1]; cbn [snd] in *; subst s1.
  - destruct (Hk a (after s e1)) as (e2 & n & E2 & C2). exists (e1 ++ e2)%list, n.
    rewrite E2, after_after, commands_app, C1, C2. now split.
  - exists e1, 0%nat. now split.
Qed.

Lemma issues_cons {A} (c : M A) s x cmds :
  (exists evs n, snd (c s) = after s evs /\ commands evs = x :: firstn n cmds) ->
  issues c s (x :: cmds).
Proof. intros (evs & n & E & C). now exists evs, (S n). Qed.

(** At most one more command: the list is [x] or [x; y]. *)
Lemma one_or_two (x y : string) (n : nat) (l : list string) :
  l = x :: firstn n [y] -> l = [x] \/ l = [x; y].
Proof. intros ->. destruct n as [|[|n]]; auto. Qed.

Section Commands.

Variable world : oracle.
Variable json_loads : string -> option json.

Lemma commands_probe_events s :
  commands (probe_events world s)
  = [get_dbg_cmd (c1_context (self s)); probe_cmd (c1_context (self s))].
Proof. unfold probe_events. now destruct (probe_ok world s). Qed.

Lemma commands_gate_events s :
  commands (gate_events world s) = [get_dbg_cmd (c1_context (self s))].
Proof.
  unfold gate_events, error_lines.
  now destruct (PyStr.truthy (stderr (phase_reply world s))).
Qed.

(** Once its commands have answered, the connectivity check returns a
    boolean after the phase query and at most the probe; without the probe
    the boolean is false. *)
Lemma connectivity_commands s :
  exists b evs n,
    test_intended_connectivity world s = (Ok b, after s evs)
    /\ commands evs = get_dbg_cmd (c1_context (self s))
                      :: firstn n [probe_cmd (c1_context (self s))]
    /\ (n = 0%nat -> b = false).
Proof.
  destruct (Z.eq_dec (returncode (phase_reply world s)) 0) as [Hrc|Hrc].
  - destruct (string_dec (PyStr.strip (stdout (phase_reply world s))) "Running")
      as [Hph|Hph].
    + exists (probe_ok world s), (probe_events world s), 1%nat.
      split; [now apply gate_open|]. split; [apply commands_probe_events|discriminate].
    + exists false, (gate_events world s), 0%nat.
      split; [apply gate_closed; now right|]. split; [apply commands_gate_events|auto].
  - exists false, (gate_events world s), 0%nat.
    split; [apply gate_closed; now left|]. split; [apply commands_gate_events|auto].
Qed.

Lemma listing_runs_once context s :
  exists e0, snd (list_public_loadbalancers world json_loads context s) = after s e0
             /\ commands e0 = [svc_list_cmd context].
Proof.
  exists (listing_events world json_loads context s).
  rewrite listing_run. split; [reflexivity | apply listing_commands].
Qed.

Lemma quiet_print_endpoint svc : quiet (print_endpoint svc).
Proof. apply quiet_print. Qed.

(** One round of the loop over the clusters: its listing, then what the
    rest of the loop runs, if it gets there. *)
Lemma exposure_loop_step context cluster_name rest cmds s :
  (forall s', issues (exposure_loop world json_loads rest) s' cmds) ->
  exists evs n,
    snd (exposure_loop world json_loads ((context, cluster_name) :: rest) s)
    = after s evs
    /\ commands evs = svc_list_cmd context :: firstn n cmds.
Proof.
  intros IH. cbn [exposure_loop].
  apply issues_after_cmd; [apply listing_runs_once|].
  intros eps s1. destruct eps as [|ep eps].
  - apply issues_after_quiet; [apply quiet_print | intros; apply IH].
  - apply issues_after_quiet; [apply quiet_print | intros _ s2].
    apply issues_after_quiet;
      [apply quiet_for_each; intros; apply quiet_print_endpoint | intros _ s3].
    apply issues_after_quiet; [apply quiet_lift | intros crit s4].
    destruct crit; [apply IH|].
    apply issues_quiet.
    repeat first [apply quiet_ret | apply quiet_print
                 | apply quiet_for_each; intros; apply quiet_print_endpoint
                 | apply quiet_bind; [|intros ?]].
Qed.

Lemma exposure_loop_issues clusters s :
  issues (exposure_loop world json_loads clusters) s
         (map (fun c => svc_list_cmd (fst c)) clusters).
Proof.
  revert s; induction clusters as [|[context cluster_name] rest IH]; intros s;
    cbn [map fst].
  - apply issues_quiet, quiet_ret.
  - apply issues_cons, exposure_loop_step, IH.
Qed.

Lemma exposure_commands s :
  exists evs n,
    snd (test_public_exposure world json_loads s) = after s evs
    /\ commands evs = svc_list_cmd (c1_context (self s))
                      :: firstn n [svc_list_cmd (c2_context (self s))].
Proof.
  rewrite exposure_run.
  destruct (exposure_loop_step (c1_context (self s)) "C1"
              [(c2_context (self s), "C2")]
              [svc_list_cmd (c2_context (self s))] (first_scan s))
    as (evs & n & E & C).
  { intros s'. apply (exposure_loop_issues [(c2_context (self s), "C2")]). }
  destruct (exposure_loop _ _ _ (first_scan s)) as [[[b|]|e] s'];
    cbn [snd] in *; subst s';
    unfold first_scan; rewrite ?emit_after, after_after;
    eexists _, n; (split; [reflexivity|]);
    rewrite !commands_app; cbn [banner2 commands app]; rewrite ?app_nil_r; exact C.
Qed.

(** X2. Whatever the world answers, and also when the check raises, the
    exposure check runs the service listing of the first cluster, then at
    most the service listing of the second, and no other command. *)
Theorem exposure_lists_first_then_second (s : state) :
  exists evs,
    snd (test_public_exposure world json_loads s) = after s evs
    /\ (commands evs = [svc_list_cmd (c1_context (self s))]
        \/ commands evs = [svc_list_cmd (c1_context (self s));
                           svc_list_cmd (c2_context (self s))]).
Proof.
  destruct (exposure_commands s) as (evs & n & E & C).
  exists evs. split; [exact E|]. now apply one_or_two with n.
Qed.

(** *** The isolation loop *)

Lemma run_cmd_runs_once cmd s :
  exists e0, snd (run_cmd world cmd s) = after s e0 /\ commands e0 = [cmd].
Proof. now exists [Cmd cmd]. Qed.

Lemma isolation_loop_step context cluster_name rg rest cmds ok s :
  (forall ok' s', issues (isolation_loop world json_loads rest ok') s' cmds) ->
  exists evs n,
    snd (isolation_loop world json_loads ((context, cluster_name, rg) :: rest) ok s)
    = after s evs
    /\ commands evs = nsg_list_cmd rg :: firstn n cmds.
Proof.
  intros IH. cbn [isolation_loop].
  apply issues_after_cmd; [apply run_cmd_runs_once|].
  intros r s1. destruct (negb _).
  - apply issues_after_quiet; [apply quiet_print | intros _ s2].
    apply issues_after_quiet; [apply quiet_print_error | intros; apply IH].
  - destruct (json_loads _) as [nsgs|].
    + destruct (negb _).
      * apply issues_after_quiet; [apply quiet_print | intros; apply IH].
      * apply issues_after_quiet; [apply quiet_lift | intros groups s2].
        apply issues_after_quiet;
          [apply quiet_for_each; intros; apply quiet_summarize | intros; apply IH].
    + apply issues_after_quiet; [apply quiet_print | intros; apply IH].
Qed.

Lemma isolation_loop_issues config ok s :
  issues (isolation_loop world json_loads config ok) s
         (map (fun c => nsg_list_cmd (snd c)) config).
Proof.
  revert ok s; induction config as [|[[context cluster_name] rg] rest IH];
    intros ok s; cbn [map snd].
  - apply issues_quiet, quiet_ret.
  - apply issues_cons, isolation_loop_step, IH.
Qed.

Lemma isolation_unfold s :
  test_network_isolation world json_loads s
  = match isolation_loop world json_loads
            [(c1_context (self s), "C1", "rg-c1-eastus");
             (c2_context (self s), "C2", "rg-c2-westus")] true (first_listing s) with
    | (Ok ok, s') => (Ok ok, emit (verdict3 ok) s')
    | (Raise e, s') => (Raise e, s')
    end.
Proof.
  unfold test_network_isolation, first_listing.
  rewrite <- (after_nil s) at 1. step.
  destruct (isolation_loop _ _ _ _ _) as [[[|]|e] s']; reflexivity.
Qed.

Lemma isolation_commands s :
  exists evs n,
    snd (test_network_isolation world json_loads s) = after s evs
    /\ commands evs = nsg_list_cmd "rg-c1-eastus"
                      :: firstn n [nsg_list_cmd "rg-c2-westus"].
Proof.
  rewrite isolation_unfold.
  destruct (isolation_loop_step (c1_context (self s)) "C1" "rg-c1-eastus"
              [(c2_context (self s), "C2", "rg-c2-westus")]
              [nsg_list_cmd "rg-c2-westus"] true (first_listing s))
    as (evs & n & E & C).
  { intros ok' s'.
    apply (isolation_loop_issues [(c2_context (self s), "C2", "rg-c2-westus")]). }
  destruct (isolation_loop _ _ _ _ (first_listing s)) as [[ok|e] s'];
    cbn [snd] in *; subst s';
    unfold first_listing; rewrite ?emit_after, after_after;
    eexists _, n; (split; [reflexivity|]);
    rewrite !commands_app; cbn [banner3 commands app];
    rewrite ?app_nil_r; try exact C.
  unfold verdict3. destruct ok; cbn [commands]; now rewrite app_nil_r.
Qed.

End Commands.

Section Order.

Variable world : oracle.
Variable json_loads : string -> option json.

(** X3. When every endpoint of the first cluster is allow-listed, both
    listings are run and the second cluster decides: the exposure check
    returns false exactly when the second cluster has an endpoint outside
    the allow-list. *)
Theorem second_cluster_decides_when_first_is_clean
        (s : state) (eps1 eps2 : list endpoint) :
  fst (list_public_loadbalancers world json_loads (c1_context (self s)) (first_scan s))
  = Ok eps1 ->
  fst (list_public_loadbalancers world json_loads (c2_context (self s))
         (second_scan world json_loads s eps1))
  = Ok eps2 ->
  Forall allow_listed eps1 ->
  Forall named eps2 ->
  exists b evs,
    test_public_exposure world json_loads s = (Ok b, after s evs)
    /\ commands evs = [svc_list_cmd (c1_context (self s));
                       svc_list_cmd (c2_context (self s))]
    /\ (b = false <-> Exists not_allow_listed eps2).
Proof.
  rewrite second_scan_eq, !listing_fst. intros L1 L2 A1 N2.
  destruct (allow_listed_or_not eps2 N2) as [A2|X2].
  - destruct (exposure_passes world json_loads s eps1 eps2 L1 L2 A1 A2) as (evs & E & C).
    exists true, evs. split; [exact E|]. split; [exact C|].
    split; [discriminate|]. intros X. exfalso.
    now apply (Forall_allow_listed_excludes eps2).
  - destruct (exposure_fails_second world json_loads s eps1 eps2 L1 L2 A1 N2 X2)
      as (evs & E & C).
    exists false, evs. split; [exact E|]. split; [exact C|]. now split.
Qed.

(** X4. When neither cluster can be listed (non-zero exit or unparseable
    output for both), the exposure check still runs both listings and
    returns true. *)
Theorem exposure_passes_when_no_listing_succeeds (s : state) :
  listing_failed world json_loads (c1_context (self s)) (first_scan s) ->
  listing_failed world json_loads (c2_context (self s))
                 (second_scan world json_loads s []) ->
  exists evs,
    test_public_exposure world json_loads s = (Ok true, after s evs)
    /\ commands evs = [svc_list_cmd (c1_context (self s));
                       svc_list_cmd (c2_context (self s))].
Proof.
  rewrite second_scan_eq. intros F1 F2.
  apply listing_failed_empty in F1. apply listing_failed_empty in F2.
  exact (exposure_passes world json_loads s [] [] F1 F2 (Forall_nil _) (Forall_nil _)).
Qed.

Lemma commands_cluster_events cluster_name rg s :
  commands (cluster_events world json_loads cluster_name rg s) = [nsg_list_cmd rg].
Proof.
  unfold cluster_events, error_lines. cbn [commands]. f_equal.
  destruct (negb _); [now destruct (PyStr.truthy _)|].
  destruct (json_loads _) as [v|]; [|reflexivity].
  destruct (negb _); [reflexivity|].
  induction (groups_of v) as [|g l IH]; [reflexivity | exact IH].
Qed.

(** X5. On listings that are lists of rule groups, the isolation check
    always lists both resource groups, the second also after the first
    could not be retrieved, and runs nothing else. *)
Theorem isolation_lists_both_resource_groups (s : state) :
  well_formed_listing world json_loads "rg-c1-eastus" (first_listing s) ->
  well_formed_listing world json_loads "rg-c2-westus"
                      (second_listing world json_loads s) ->
  exists b evs,
    test_network_isolation world json_loads s = (Ok b, after s evs)
    /\ commands evs = [nsg_list_cmd "rg-c1-eastus"; nsg_list_cmd "rg-c2-westus"].
Proof.
  intros W1. rewrite (second_listing_eq world json_loads s W1). intros W2.
  rewrite (isolation_run world json_loads s W1 W2).
  unfold second_listing_unfolded, first_listing. rewrite !after_after.
  eexists _, _. split; [reflexivity|].
  rewrite !commands_app, !commands_cluster_events.
  unfold verdict3. now destruct (_ && _).
Qed.

End Order.

(** ** The whole run *)

Section Whole.

Variable world : oracle.
Variable json_loads : string -> option json.

(** The six commands of a run, by check. *)
Definition connectivity_cmds (me : K8sConnectivityVerifier) : list string :=
  [get_dbg_cmd (c1_context me); probe_cmd (c1_context me)].

Definition exposure_cmds (me : K8sConnectivityVerifier) : list string :=
  [svc_list_cmd (c1_context me); svc_list_cmd (c2_context me)].

Definition isolation_cmds : list string :=
  [nsg_list_cmd "rg-c1-eastus"; nsg_list_cmd "rg-c2-westus"].

Lemma commands_summary_events report : commands (summary_events report) = [].
Proof.
  unfold summary_events. cbn [app commands]. rewrite commands_app.
  induction report as [|tp report IH]; [reflexivity | exact IH].
Qed.

(** A run either raises where a check raised, or completes; [evs] is what
    the banner and the checks added to the trace. *)
Lemma verify_all_cases s :
  exists evs n1 n2 n3,
    commands evs = (firstn n1 (connectivity_cmds (self s))
                    ++ firstn n2 (exposure_cmds (self s))
                    ++ firstn n3 isolation_cmds)%list
    /\ ((exists e, verify_all world json_loads s = (Raise e, after s evs))
        \/ (exists a b c,
              verify_all world json_loads s
              = (Ok (report_of a b c), finished (report_of a b c) (after s evs)))).
Proof.
  rewrite verify_all_run.
  destruct (connectivity_commands world (after s banner0)) as (a & e1 & n1 & T1 & C1 & _).
  rewrite T1.
  destruct (exposure_commands world json_loads (after (after s banner0) e1))
    as (e2 & n2 & T2 & C2).
  destruct (test_public_exposure _ _ _) as [[b|e] s2]; cbn [snd] in T2; subst s2.
  - destruct (isolation_commands world json_loads
                (after (after (after s banner0) e1) e2)) as (e3 & n3 & T3 & C3).
    destruct (test_network_isolation _ _ _) as [[c|e] s3]; cbn [snd] in T3; subst s3;
      rewrite !after_after;
      exists (banner0 ++ e1 ++ e2 ++ e3)%list, (S n1), (S n2), (S n3);
      (split; [rewrite !commands_app, C1, C2, C3; reflexivity|]).
    + right. now exists a, b, c.
    + left. now exists e.
  - rewrite !after_after. exists (banner0 ++ e1 ++ e2)%list, (S n1), (S n2), 0%nat.
    split; [rewrite !commands_app, C1, C2; cbn [firstn]; now rewrite app_nil_r|].
    left. now exists e.
Qed.

(** X6. A run issues no command besides its six: the phase query and the
    probe, the two service listings, the two rule-group listings. It runs
    them in this order, each at most once, possibly stopping early. *)
Theorem verify_all_runs_only_its_six_commands (s : state) :
  exists evs n1 n2 n3,
    trace (snd (verify_all world json_loads s)) = (trace s ++ evs)%list
    /\ commands evs
       = (firstn n1 [get_dbg_cmd (c1_context (self s));
                     probe_cmd (c1_context (self s))]
          ++ firstn n2 [svc_list_cmd (c1_context (self s));
                        svc_list_cmd (c2_context (self s))]
          ++ firstn n3 [nsg_list_cmd "rg-c1-eastus"; nsg_list_cmd "rg-c2-westus"])%list.
Proof.
  destruct (verify_all_cases s) as (evs & n1 & n2 & n3 & C & [(e & E)|(a & b & c & E)]);
    rewrite E; cbn [snd].
  - exists evs, n1, n2, n3. now split.
  - exists (evs ++ summary_events (report_of a b c))%list, n1, n2, n3.
    cbn [finished trace after]. split; [now rewrite app_assoc|].
    now rewrite commands_app, commands_summary_events, app_nil_r.
Qed.

(** X7. A run never changes the two contexts of the verifier. It replaces
    [results] by the report when it completes, and leaves [results] as it
    was when it raises. *)
Theorem verify_all_changes_results_only (s : state) :
  c1_context (self (snd (verify_all world json_loads s))) = c1_context (self s)
  /\ c2_context (self (snd (verify_all world json_loads s))) = c2_context (self s)
  /\ results (self (snd (verify_all world json_loads s)))
     = match fst (verify_all world json_loads s) with
       | Ok report => report
       | Raise _ => results (self s)
       end.
Proof.
  destruct (verify_all_cases s) as (evs & n1 & n2 & n3 & _ & [(e & E)|(a & b & c & E)]);
    rewrite E; now cbn.
Qed.

(** X8. An exception raised by the exposure check is not caught: the run
    raises it too, in the state the check left, with [results] untouched and
    without having listed any rule group. *)
Theorem verify_all_aborts_when_exposure_raises
        (s s1 s2 : state) (a : bool) (e : exn) :
  test_intended_connectivity world (after s banner0) = (Ok a, s1) ->
  test_public_exposure world json_loads s1 = (Raise e, s2) ->
  verify_all world json_loads s = (Raise e, s2)
  /\ self s2 = self s
  /\ exists evs n1 n2,
       s2 = after s evs
       /\ commands evs
          = (get_dbg_cmd (c1_context (self s))
             :: firstn n1 [probe_cmd (c1_context (self s))]
             ++ svc_list_cmd (c1_context (self s))
             :: firstn n2 [svc_list_cmd (c2_context (self s))])%list.
Proof.
  intros T1 T2. split; [now rewrite verify_all_run, T1, T2|].
  destruct (connectivity_commands world (after s banner0)) as (a' & e1 & n1 & E1 & C1 & _).
  rewrite T1 in E1. injection E1 as _ ->.
  destruct (exposure_commands world json_loads (after (after s banner0) e1))
    as (e2 & n2 & E2 & C2).
  rewrite T2 in E2. cbn [snd] in E2. subst s2.
  rewrite !after_after. split; [reflexivity|].
  exists (banner0 ++ e1 ++ e2)%list, n1, n2. split; [reflexivity|].
  rewrite !commands_app, C1, C2. reflexivity.
Qed.

End Whole.

(** ** What makes a check raise *)

(** A LoadBalancer service that carries an external IP on one of its
    ingress entries (objects all) and has no metadata. *)
Definition exposed_without_metadata (svc : json) : bool :=
  is_load_balancer svc
  && forallb is_object (ingress_entries svc)
  && existsb has_external_ip (ingress_entries svc)
  && match field "metadata" svc with
     | None => true
     | Some _ => false
     end.

Definition is_list (v : json) : bool :=
  match v with
  | JArr _ => true
  | _ => false
  end.

(** The exception Python raises when it iterates over a value that is no
    list and calls [get] on the first element: a number or a boolean cannot
    be iterated, the elements of a string or of a dict are strings. *)
Definition iteration_error (v : json) : exn :=
  match v with
  | JStr _ | JObj _ => AttributeError
  | _ => TypeError
  end.

Lemma ingress_loop_without_metadata kvs ings acc :
  Py.lookup "metadata" kvs = None ->
  forallb is_object ings = true ->
  existsb has_external_ip ings = true ->
  fold_r (ingress_step (JObj kvs)) ings acc = Raise (KeyError "metadata").
Proof.
  intros Md. revert acc; induction ings as [|ing ings IH]; intros acc O X;
    cbn [forallb existsb fold_r] in *; [discriminate|].
  apply andb_true_iff in O as [Oi O].
  destruct (has_external_ip ing) eqn:E; cbn [orb] in X.
  - destruct ing as [| | | | | |ikvs]; try discriminate Oi.
    unfold has_external_ip in E. unfold ingress_step. cbn [field Py.get rbind] in *.
    destruct (Py.lookup "ip" ikvs) as [addr|]; [|discriminate]. rewrite E.
    cbn [Py.getitem]. now rewrite Md.
  - rewrite (ingress_step_skip (JObj kvs) ing acc Oi E). cbn [rbind]. now apply IH.
Qed.

Lemma svc_step_without_metadata svc acc :
  exposed_without_metadata svc = true ->
  svc_step svc acc = Raise (KeyError "metadata").
Proof.
  unfold exposed_without_metadata. rewrite !andb_true_iff.
  intros [[[LB O] X] Md].
  destruct svc as [| | | | | |kvs]; try discriminate LB.
  unfold is_load_balancer, ingress_entries in *. cbn [field] in *.
  unfold svc_step. cbn [Py.get rbind].
  destruct (Py.lookup "spec" kvs) as [[| | | | | |sp]|]; try discriminate LB.
  cbn [field Py.get rbind] in *. rewrite type_test, LB. cbn [negb].
  destruct (Py.lookup "status" kvs) as [[| | | | | |st]|]; try discriminate X.
  cbn [field Py.get rbind] in *.
  destruct (Py.lookup "loadBalancer" st) as [[| | | | | |lb]|]; try discriminate X.
  cbn [field Py.get rbind] in *.
  destruct (Py.lookup "ingress" lb) as [[| | | | |ings|]|]; try discriminate X.
  destruct ings as [|ing ings]; [discriminate X|].
  cbn [Py.truthy Py.iter rbind].
  apply ingress_loop_without_metadata; [|assumption|assumption].
  now destruct (Py.lookup "metadata" kvs).
Qed.

Lemma fold_r_app {A B} (f : A -> B -> result B) (l1 l2 : list A) (acc : B) :
  fold_r f (l1 ++ l2) acc = rbind (fold_r f l1 acc) (fold_r f l2).
Proof.
  revert acc; induction l1 as [|x l1 IH]; intros acc; cbn [app fold_r]; [reflexivity|].
  destruct (f x acc) as [acc'|e]; cbn [rbind]; [apply IH | reflexivity].
Qed.

Lemma for_each_app {A} (l1 l2 : list A) (body : A -> M unit) (s : state) :
  for_each (l1 ++ l2) body s = bind (for_each l1 body) (fun _ => for_each l2 body) s.
Proof.
  revert s; induction l1 as [|x l1 IH]; intros s; cbn [app for_each]; [reflexivity|].
  unfold bind. destruct (body x s) as [[u|e] s1]; [|reflexivity].
  rewrite IH. reflexivity.
Qed.

Section Raising.

Variable world : oracle.
Variable json_loads : string -> option json.

(** X9. When the service listing parses to anything but a JSON object (a
    list, a string, a number, null), [list_public_loadbalancers] raises
    AttributeError right after its command, without printing. *)
Theorem listing_raises_on_non_object (context : string) (s : state) (v : json) :
  returncode (svc_reply world context s) = 0 ->
  json_loads (stdout (svc_reply world context s)) = Some v ->
  is_object v = false ->
  list_public_loadbalancers world json_loads context s
  = (Raise AttributeError, after s [Cmd (svc_list_cmd context)]).
Proof.
  intros Hrc Hj O. rewrite (listing_parsed world json_loads context s v Hrc Hj).
  now destruct v.
Qed.

(** X10. A LoadBalancer service with an external IP and no metadata makes
    [list_public_loadbalancers] raise KeyError for the key metadata, whatever
    well-formed services come before it and whatever comes after; the records
    collected so far are lost. *)
Theorem listing_raises_on_missing_metadata
        (context : string) (s : state) (services svc : json) (before after' : list json) :
  returncode (svc_reply world context s) = 0 ->
  json_loads (stdout (svc_reply world context s)) = Some services ->
  items_of services = Some (before ++ svc :: after')%list ->
  forallb service_shape before = true ->
  exposed_without_metadata svc = true ->
  list_public_loadbalancers world json_loads context s
  = (Raise (KeyError "metadata"), after s [Cmd (svc_list_cmd context)]).
Proof.
  intros Hrc Hj I Sh X. rewrite (listing_parsed world json_loads context s services Hrc Hj).
  f_equal. unfold collect_public_svcs.
  destruct services as [| | | | | |kvs]; try discriminate I.
  cbn [items_of Py.get rbind] in *.
  destruct (Py.lookup "items" kvs) as [[| | | | |l|]|]; try discriminate I.
  - injection I as ->. cbn [Py.iter rbind]. rewrite fold_r_app.
    destruct (svc_loop before [] Sh) as [-> _]. cbn [rbind fold_r].
    now rewrite svc_step_without_metadata.
  - injection I as I. now destruct before.
Qed.

Lemma summarize_string cluster_name str s :
  summarize_nsg cluster_name (JStr str) s = (Raise AttributeError, s).
Proof. reflexivity. Qed.

Lemma summarize_null_rules cluster_name kvs s :
  Py.lookup "securityRules" kvs = Some JNull ->
  summarize_nsg cluster_name (JObj kvs) s = (Raise TypeError, s).
Proof.
  intros R. unfold summarize_nsg, bind, lift. cbn [Py.get]. now rewrite R.
Qed.

(** X11. When the rule-group listing of the first resource group parses to
    a truthy value that is no list, the isolation check raises right after
    the listing: TypeError for a number or a boolean, AttributeError for a
    string or an object. The second resource group is not listed. *)
Theorem isolation_raises_on_non_list (s : state) (v : json) :
  returncode (nsg_reply world "rg-c1-eastus" (first_listing s)) = 0 ->
  json_loads (stdout (nsg_reply world "rg-c1-eastus" (first_listing s))) = Some v ->
  Py.truthy v = true ->
  is_list v = false ->
  test_network_isolation world json_loads s
  = (Raise (iteration_error v),
     after s (banner3 ++ [Cmd (nsg_list_cmd "rg-c1-eastus")])).
Proof.
  intros Hrc Hj T L. rewrite isolation_unfold. cbn [isolation_loop].
  unfold first_listing in *. step.
  change (world _ (nsg_list_cmd "rg-c1-eastus"))
    with (nsg_reply world "rg-c1-eastus" (after s banner3)).
  rewrite Hrc, Hj, T. cbn [Z.eqb negb]. step.
  destruct v as [| | | |str|l|kvs]; try discriminate L; try reflexivity.
  - destruct str as [|c str]; [discriminate T|].
    cbn [Py.iter PyStr.chars map for_each]. unfold bind. now rewrite summarize_string.
  - destruct kvs as [|[k x] kvs]; [discriminate T|].
    cbn [Py.iter map fst for_each]. unfold bind. now rewrite summarize_string.
Qed.

(** X12. A rule group whose securityRules is null makes the isolation
    check raise TypeError: the groups listed before it are summarized, the
    ones after it and the second resource group are never looked at. *)
Theorem isolation_raises_on_null_rules
        (s : state) (before after' : list json) (kvs : list (string * json)) :
  returncode (nsg_reply world "rg-c1-eastus" (first_listing s)) = 0 ->
  json_loads (stdout (nsg_reply world "rg-c1-eastus" (first_listing s)))
  = Some (JArr (before ++ JObj kvs :: after')) ->
  forallb rule_group before = true ->
  Py.lookup "securityRules" kvs = Some JNull ->
  test_network_isolation world json_loads s
  = (Raise TypeError,
     after s (banner3 ++ Cmd (nsg_list_cmd "rg-c1-eastus")
                      :: map (summary_line "C1") before)).
Proof.
  intros Hrc Hj G R. rewrite isolation_unfold. cbn [isolation_loop].
  unfold first_listing in *. step.
  change (world _ (nsg_list_cmd "rg-c1-eastus"))
    with (nsg_reply world "rg-c1-eastus" (after s banner3)).
  rewrite Hrc, Hj. cbn [Z.eqb negb].
  assert (T : Py.truthy (JArr (before ++ JObj kvs :: after')) = true)
    by now destruct before.
  rewrite T. cbn [negb Py.iter]. step.
  rewrite for_each_app. unfold bind at 1.
  rewrite (summarize_groups "C1" before s _ G).
  cbn [for_each]. unfold bind at 1. rewrite (summarize_null_rules _ _ _ R).
  now rewrite <- app_assoc.
Qed.

End Raising.

(** ** What a check depends on *)

(** Two computations that, started on the same trace, return the same and
    leave the same trace, whatever the verifier objects are. *)
Definition agree {A} (c c' : M A) : Prop :=
  forall s s', trace s = trace s' ->
               fst (c s) = fst (c' s') /\ trace (snd (c s)) = trace (snd (c' s')).

Lemma agree_ret {A} (a : A) : agree (ret a) (ret a).
Proof. intros s s' T. now split. Qed.

Lemma agree_lift {A} (r : result A) : agree (lift r) (lift r).
Proof. intros s s' T. now split. Qed.

Lemma agree_print fmt args : agree (print fmt args) (print fmt args).
Proof. intros s s' T. cbn. now rewrite T. Qed.

Lemma agree_bind {A B} (c c' : M A) (k k' : A -> M B) :
  agree c c' -> (forall a, agree (k a) (k' a)) -> agree (bind c k) (bind c' k').
Proof.
  intros Hc Hk s s' T. unfold bind. destruct (Hc s s' T) as [F S].
  destruct (c s) as [[a|e] s1], (c' s') as [[a'|e'] s1']; cbn [fst snd] in *;
    try discriminate F.
  - injection F as <-. now apply Hk.
  - injection F as <-. now split.
Qed.

Lemma agree_get_self {B} (k k' : K8sConnectivityVerifier -> M B) :
  (forall me me', agree (k me) (k' me')) -> agree (bind get_self k) (bind get_self k').
Proof. intros Hk s s' T. unfold bind, get_self. now apply Hk. Qed.

Lemma agree_for_each {A} (l : list A) (body : A -> M unit) :
  (forall x, agree (body x) (body x)) -> agree (for_each l body) (for_each l body).
Proof.
  intros Hb. induction l as [|x l IH]; cbn [for_each].
  - apply agree_ret.
  - apply agree_bind; auto.
Qed.

Lemma agree_print_error err : agree (print_error err) (print_error err).
Proof.
  unfold print_error. destruct (PyStr.truthy err); [apply agree_print | apply agree_ret].
Qed.

Lemma agree_summarize cluster_name nsg :
  agree (summarize_nsg cluster_name nsg) (summarize_nsg cluster_name nsg).
Proof.
  unfold summarize_nsg.
  repeat first [apply agree_lift | apply agree_print | apply agree_bind; [|intros ?]].
Qed.

Section Dependence.

Variable world : oracle.
Variable json_loads : string -> option json.

Lemma agree_run_cmd cmd : agree (run_cmd world cmd) (run_cmd world cmd).
Proof. intros s s' T. cbn. now rewrite T. Qed.

(** The loop never looks at the context of an entry. *)
Lemma agree_isolation_loop config config' ok :
  map (fun c => (snd (fst c), snd c)) config
  = map (fun c => (snd (fst c), snd c)) config' ->
  agree (isolation_loop world json_loads config ok)
        (isolation_loop world json_loads config' ok).
Proof.
  revert config' ok.
  induction config as [|[[context cluster_name] rg] rest IH];
    intros [|[[context' cluster_name'] rg'] rest'] ok E; try discriminate E.
  - apply agree_ret.
  - cbn [map fst snd] in E. injection E as -> -> E. cbn [isolation_loop].
    apply agree_bind; [apply agree_run_cmd | intros r].
    destruct (negb _).
    + apply agree_bind; [apply agree_print | intros _].
      apply agree_bind; [apply agree_print_error | intros _]. now apply IH.
    + destruct (json_loads _) as [nsgs|].
      * destruct (negb _).
        -- apply agree_bind; [apply agree_print | intros _]. now apply IH.
        -- apply agree_bind; [apply agree_lift | intros groups].
           apply agree_bind;
             [apply agree_for_each; intros; apply agree_summarize | intros _].
           now apply IH.
      * apply agree_bind; [apply agree_print | intros _]. now apply IH.
Qed.

(** X13. The isolation check depends on the world and on the trace so far
    only: two verifiers with different contexts and different earlier
    results get the same verdict (or the same exception) and print the
    same lines. *)
Theorem isolation_ignores_the_contexts (s s' : state) :
  trace s = trace s' ->
  fst (test_network_isolation world json_loads s)
  = fst (test_network_isolation world json_loads s')
  /\ trace (snd (test_network_isolation world json_loads s))
     = trace (snd (test_network_isolation world json_loads s')).
Proof.
  revert s s'. change (agree (test_network_isolation world json_loads)
                             (test_network_isolation world json_loads)).
  unfold test_network_isolation, rule.
  apply agree_bind; [apply agree_print | intros _].
  apply agree_bind; [apply agree_print | intros _].
  apply agree_get_self. intros me me'.
  apply agree_bind; [now apply agree_isolation_loop | intros ok].
  apply agree_bind; [destruct ok; apply agree_print | intros _; apply agree_ret].
Qed.

End Dependence.

(** ** These theorems on concrete runs *)

Module MoreRuns.

Import Fixture.

(** A LoadBalancer with an address and no metadata, between two services
    that are in order. *)
Definition anonymous_service : json :=
  JObj [("spec", JObj [("type", JStr "LoadBalancer")]);
        ("status",
         JObj [("loadBalancer",
                JObj [("ingress", JArr [JObj [("hostname", JStr "lb.example.org")];
                                        JObj [("ip", JStr "10.0.0.1")]])])])].

Definition anonymous_listing : json :=
  services [lb_service "frontend-svc" "default" "1.2.3.4";
            anonymous_service;
            lb_service "admin-svc" "default" "5.6.7.8"].

Definition error_document : json :=
  JObj [("error", JStr "AuthorizationFailed")].

Definition broken_group : (list (string * json)) :=
  [("name", JStr "nsg2"); ("securityRules", JNull)].

Definition groups_with_null_rules : json :=
  JArr [nsg1; JObj broken_group; nsg1].

Definition loads_more : string -> option json :=
  loads_of [services []; frontend_and_admin; frontend_only; anonymous_listing;
            error_document; groups_with_null_rules; JArr [nsg1]; JArr []].

(** C1 exposes its frontend only, C2 exposes admin-svc. *)
Definition world_c2_exposed : oracle :=
  scripted [(svc_list_cmd "aks-c1-eastus", ok_response (dumps frontend_only));
            (svc_list_cmd "aks-c2-westus", ok_response (dumps frontend_and_admin))].

(** No command works at all. *)
Definition world_dead : oracle := scripted [].

(** The rule groups of C1 cannot be listed, those of C2 can. *)
Definition world_rg1_down : oracle :=
  scripted [(nsg_list_cmd "rg-c1-eastus", failed_response "AuthorizationFailed");
            (nsg_list_cmd "rg-c2-westus", ok_response (dumps (JArr [nsg1])))].

(** The listing of C1 holds a service without metadata. *)
Definition world_anonymous : oracle :=
  scripted [(phase_cmd, ok_response "Running");
            (exec_cmd, ok_response "OK-C2");
            (svc_list_cmd "aks-c1-eastus", ok_response (dumps anonymous_listing))].

(** The listings come back as documents of another kind. *)
Definition world_odd : oracle :=
  scripted [(svc_list_cmd "aks-c1-eastus", ok_response (dumps (JArr [])));
            (nsg_list_cmd "rg-c1-eastus", ok_response (dumps error_document))].

Definition world_null_rules : oracle :=
  scripted [(nsg_list_cmd "rg-c1-eastus", ok_response (dumps groups_with_null_rules))].

(** Another verifier: other contexts, results of an earlier run. *)
Definition other_start : state :=
  {| self := {| c1_context := "kind-a"; c2_context := "kind-b";
                results := [("intended_connectivity", true)] |};
     trace := [] |}.

(** C1 clean, admin-svc in C2: both listings, and the check fails. *)
Lemma second_cluster_decides_when_first_is_clean_witness :
  fst (list_public_loadbalancers world_c2_exposed loads "aks-c1-eastus" (first_scan start))
  = Ok [external_ep]
  /\ fst (list_public_loadbalancers world_c2_exposed loads "aks-c2-westus"
            (second_scan world_c2_exposed loads start [external_ep]))
     = Ok [frontend_ep; admin_ep]
  /\ Forall allow_listed [external_ep]
  /\ Forall named [frontend_ep; admin_ep]
  /\ exists b evs,
       test_public_exposure world_c2_exposed loads start = (Ok b, after start evs)
       /\ commands evs = [svc_list_cmd "aks-c1-eastus"; svc_list_cmd "aks-c2-westus"]
       /\ (b = false <-> Exists not_allow_listed [frontend_ep; admin_ep]).
Proof.
  assert (A : Forall allow_listed [external_ep])
    by (repeat constructor; apply Runs.external_is_allow_listed).
  assert (N : Forall named [frontend_ep; admin_ep])
    by (repeat constructor; [apply Runs.frontend_is_named | apply Runs.admin_is_named]).
  split; [reflexivity|]. split; [reflexivity|]. split; [exact A|]. split; [exact N|].
  exact (second_cluster_decides_when_first_is_clean world_c2_exposed loads start
           [external_ep] [frontend_ep; admin_ep] eq_refl eq_refl A N).
Defined.

(** Nothing can be listed: the exposure check passes all the same. *)
Lemma exposure_passes_when_no_listing_succeeds_witness :
  listing_failed world_dead loads "aks-c1-eastus" (first_scan start)
  /\ listing_failed world_dead loads "aks-c2-westus" (second_scan world_dead loads start [])
  /\ exists evs,
       test_public_exposure world_dead loads start = (Ok true, after start evs)
       /\ commands evs = [svc_list_cmd "aks-c1-eastus"; svc_list_cmd "aks-c2-westus"].
Proof.
  assert (F1 : listing_failed world_dead loads "aks-c1-eastus" (first_scan start))
    by (left; vm_compute; discriminate).
  assert (F2 : listing_failed world_dead loads "aks-c2-westus"
                 (second_scan world_dead loads start []))
    by (left; vm_compute; discriminate).
  split; [exact F1|]. split; [exact F2|].
  exact (exposure_passes_when_no_listing_succeeds world_dead loads start F1 F2).
Defined.

Lemma listings_rg1_down_well_formed :
  well_formed_listing world_rg1_down loads "rg-c1-eastus" (first_listing start)
  /\ well_formed_listing world_rg1_down loads "rg-c2-westus"
       (second_listing world_rg1_down loads start).
Proof.
  split; intros v R H; vm_compute in H, R; [discriminate R | injection H as <-; reflexivity].
Qed.

(** The first listing fails; the second is run all the same. *)
Lemma isolation_lists_both_resource_groups_witness :
  well_formed_listing world_rg1_down loads "rg-c1-eastus" (first_listing start)
  /\ well_formed_listing world_rg1_down loads "rg-c2-westus"
       (second_listing world_rg1_down loads start)
  /\ exists b evs,
       test_network_isolation world_rg1_down loads start = (Ok b, after start evs)
       /\ commands evs = [nsg_list_cmd "rg-c1-eastus"; nsg_list_cmd "rg-c2-westus"].
Proof.
  destruct listings_rg1_down_well_formed as [W1 W2].
  split; [exact W1|]. split; [exact W2|].
  exact (isolation_lists_both_resource_groups world_rg1_down loads start W1 W2).
Defined.

(** The exposure check raises KeyError; so does the run. *)
Lemma verify_all_aborts_when_exposure_raises_witness :
  test_intended_connectivity world_anonymous (after start banner0)
  = (Ok true, snd (test_intended_connectivity world_anonymous (after start banner0)))
  /\ test_public_exposure world_anonymous loads_more
       (snd (test_intended_connectivity world_anonymous (after start banner0)))
     = (Raise (KeyError "metadata"),
        snd (test_public_exposure world_anonymous loads_more
               (snd (test_intended_connectivity world_anonymous (after start banner0)))))
  /\ fst (verify_all world_anonymous loads_more start) = Raise (KeyError "metadata")
  /\ results (self (snd (verify_all world_anonymous loads_more start))) = [].
Proof.
  assert (T1 : test_intended_connectivity world_anonymous (after start banner0)
               = (Ok true,
                  snd (test_intended_connectivity world_anonymous (after start banner0))))
    by (vm_compute; reflexivity).
  assert (T2 : test_public_exposure world_anonymous loads_more
                 (snd (test_intended_connectivity world_anonymous (after start banner0)))
               = (Raise (KeyError "metadata"),
                  snd (test_public_exposure world_anonymous loads_more
                         (snd (test_intended_connectivity world_anonymous
                                 (after start banner0))))))
    by (vm_compute; reflexivity).
  split; [exact T1|]. split; [exact T2|].
  destruct (verify_all_aborts_when_exposure_raises world_anonymous loads_more start
              _ _ true (KeyError "metadata") T1 T2) as (E & S & _).
  rewrite E. cbn [fst snd]. split; [reflexivity|]. now rewrite S.
Defined.

(** The service listing is a JSON list. *)
Lemma listing_raises_on_non_object_witness :
  returncode (svc_reply world_odd "aks-c1-eastus" start) = 0
  /\ loads_more (stdout (svc_reply world_odd "aks-c1-eastus" start)) = Some (JArr [])
  /\ is_object (JArr []) = false
  /\ list_public_loadbalancers world_odd loads_more "aks-c1-eastus" start
     = (Raise AttributeError, after start [Cmd (svc_list_cmd "aks-c1-eastus")]).
Proof.
  split; [reflexivity|]. split; [reflexivity|]. split; [reflexivity|].
  exact (listing_raises_on_non_object world_odd loads_more "aks-c1-eastus" start
           (JArr []) eq_refl eq_refl eq_refl).
Defined.

(** The second of three services has no metadata. *)
Lemma listing_raises_on_missing_metadata_witness :
  returncode (svc_reply world_anonymous "aks-c1-eastus" start) = 0
  /\ loads_more (stdout (svc_reply world_anonymous "aks-c1-eastus" start))
     = Some anonymous_listing
  /\ items_of anonymous_listing
     = Some ([lb_service "frontend-svc" "default" "1.2.3.4"]
             ++ anonymous_service :: [lb_service "admin-svc" "default" "5.6.7.8"])%list
  /\ forallb service_shape [lb_service "frontend-svc" "default" "1.2.3.4"] = true
  /\ exposed_without_metadata anonymous_service = true
  /\ list_public_loadbalancers world_anonymous loads_more "aks-c1-eastus" start
     = (Raise (KeyError "metadata"), after start [Cmd (svc_list_cmd "aks-c1-eastus")]).
Proof.
  split; [reflexivity|]. split; [reflexivity|]. split; [reflexivity|].
  split; [reflexivity|]. split; [reflexivity|].
  exact (listing_raises_on_missing_metadata world_anonymous loads_more "aks-c1-eastus" start
           anonymous_listing anonymous_service
           [lb_service "frontend-svc" "default" "1.2.3.4"]
           [lb_service "admin-svc" "default" "5.6.7.8"]
           eq_refl eq_refl eq_refl eq_refl eq_refl).
Defined.

(** The rule-group listing is an error object. *)
Lemma isolation_raises_on_non_list_witness :
  returncode (nsg_reply world_odd "rg-c1-eastus" (first_listing start)) = 0
  /\ loads_more (stdout (nsg_reply world_odd "rg-c1-eastus" (first_listing start)))
     = Some error_document
  /\ Py.truthy error_document = true
  /\ is_list error_document = false
  /\ test_network_isolation world_odd loads_more start
     = (Raise AttributeError,
        after start (banner3 ++ [Cmd (nsg_list_cmd "rg-c1-eastus")])).
Proof.
  split; [reflexivity|]. split; [reflexivity|]. split; [reflexivity|].
  split; [reflexivity|].
  exact (isolation_raises_on_non_list world_odd loads_more start error_document
           eq_refl eq_refl eq_refl eq_refl).
Defined.

(** The second of three rule groups has null rules. *)
Lemma isolation_raises_on_null_rules_witness :
  returncode (nsg_reply world_null_rules "rg-c1-eastus" (first_listing start)) = 0
  /\ loads_more (stdout (nsg_reply world_null_rules "rg-c1-eastus" (first_listing start)))
     = Some (JArr ([nsg1] ++ JObj broken_group :: [nsg1])%list)
  /\ forallb rule_group [nsg1] = true
  /\ Py.lookup "securityRules" broken_group = Some JNull
  /\ test_network_isolation world_null_rules loads_more start
     = (Raise TypeError,
        after start (banner3 ++ Cmd (nsg_list_cmd "rg-c1-eastus")
                             :: map (summary_line "C1") [nsg1])).
Proof.
  split; [reflexivity|]. split; [reflexivity|]. split; [reflexivity|].
  split; [reflexivity|].
  exact (isolation_raises_on_null_rules world_null_rules loads_more start
           [nsg1] [nsg1] broken_group eq_refl eq_refl eq_refl eq_refl).
Defined.

(** Two verifiers, one world: the same isolation verdict. *)
Lemma isolation_ignores_the_contexts_witness :
  trace start = trace other_start
  /\ fst (test_network_isolation world_pass loads start)
     = fst (test_network_isolation world_pass loads other_start)
  /\ trace (snd (test_network_isolation world_pass loads start))
     = trace (snd (test_network_isolation world_pass loads other_start)).
Proof.
  split; [reflexivity|].
  exact (isolation_ignores_the_contexts world_pass loads start other_start eq_refl).
Defined.

End MoreRuns.

(** ** The script's entry point *)

(** [K8sConnectivityVerifier.__init__]: no results yet. *)
Definition init (c1 c2 : string) : K8sConnectivityVerifier :=
  {| c1_context := c1; c2_context := c2; results := [] |}.

(** [if __name__ == "__main__"]: one run on a fresh verifier; the report
    is dropped. *)
Definition main (world : oracle) (json_loads : string -> option json)
  : result unit * state :=
  let verifier := init "aks-c1-eastus" "aks-c2-westus" in
  match verify_all world json_loads {| self := verifier; trace := [] |} with
  | (Ok _, s) => (Ok tt, s)
  | (Raise e, s) => (Raise e, s)
  end.

Example main_in_a_dead_world :
  fst (main MoreRuns.world_dead Fixture.loads) = Ok tt
  /\ results (self (snd (main MoreRuns.world_dead Fixture.loads)))
     = [("intended_connectivity", false); ("public_exposure", true);
        ("network_isolation", false)].
Proof. split; vm_compute; reflexivity. Qed.
